(** * dagny_robomagellan: occupancy grid, arc planner and cone detector

    A shallow embedding of [path_planner.cpp] and [cone_detector.cpp].

    - A C [double] is a binary64 primitive float; [+], [-], [*], [/],
      comparisons and [fabs] are the IEEE operations.
    - The functions of [<math.h>] that IEEE 754 does not fix ([cos], [sin],
      [tan], [atan2], [hypot]) are the fields of the class [Libm]; every
      general theorem holds for every instance. [round] and [modf] are
      exact and are written out.
    - [int] is [Z] with the conversions written out, [int8_t] wraps.
    - A loop over a [double] counter takes a bound on its iterations and
      returns [None] when the bound is reached.
    - The global grid [map_data] is a finite map from the row-major index to
      the cell value; an absent key is a cell that still holds the [0] that
      [main] stored.
    - The node's globals are the record [planner]; each callback is a
      function from the record to the record and the list of messages it
      published. [ros::Time::now()] is read once per callback. *)

From Stdlib Require Import ZArith Lia Bool Floats.
From stdpp Require Import base option list gmap strings.

Set Warnings "-inexact-float".

#[local] Open Scope Z_scope.

(* ------------------------------------------------------------------ *)
(** * C doubles and integers *)

Module Double.

#[local] Open Scope float_scope.

Definition M_PI : float := 0x1.921fb54442d18p+1.

(** The C comparisons; each is false when an operand is NaN, except [!=]. *)
Definition lt (a b : float) : bool := PrimFloat.ltb a b.
Definition gt (a b : float) : bool := PrimFloat.ltb b a.
Definition le (a b : float) : bool := PrimFloat.leb a b.
Definition ge (a b : float) : bool := PrimFloat.leb b a.
Definition eq (a b : float) : bool := PrimFloat.eqb a b.
Definition ne (a b : float) : bool := negb (PrimFloat.eqb a b).

(** [std::min(a, b)] is [(b < a) ? b : a], [std::max(a, b)] is
    [(a < b) ? b : a]. *)
Definition min (a b : float) : float := if lt b a then b else a.
Definition max (a b : float) : float := if lt a b then b else a.

Definition fabs (a : float) : float := PrimFloat.abs a.

(** Conversion of an integer to [double] (round to nearest even). *)
Definition of_Z (z : Z) : float :=
  SF2Prim (binary_normalize prec emax z 0 false).

(** [round]: to the nearest integer, halfway cases away from zero. *)
Definition round (x : float) : float :=
  match Prim2SF x with
  | S754_finite s m e =>
      if (0 <=? e)%Z then x
      else
        let d := (2 ^ (- e))%Z in
        let q := (Z.pos m / d)%Z in
        let r := (Z.pos m mod d)%Z in
        let n := if (d <=? 2 * r)%Z then (q + 1)%Z else q in
        if (n =? 0)%Z then (if s then (-0)%float else 0%float)
        else of_Z (if s then (- n)%Z else n)
  | _ => x
  end.

(** The sign bit. *)
Definition signbit (x : float) : bool :=
  match Prim2SF x with
  | S754_zero s | S754_infinity s | S754_finite s _ _ => s
  | S754_nan => false
  end.

Definition INT_MIN : Z := (- 2 ^ 31)%Z.
Definition INT_MAX : Z := (2 ^ 31 - 1)%Z.

(** The integral part of a finite double. *)
Definition trunc (x : float) : option Z :=
  match Prim2SF x with
  | S754_zero _ => Some 0%Z
  | S754_finite s m e =>
      let a := if (0 <=? e)%Z then (Z.pos m * 2 ^ e)%Z
               else (Z.pos m / 2 ^ (- e))%Z in
      Some (if s then (- a)%Z else a)
  | _ => None
  end.

(** [modf(x, &ip)]: the fractional part of [x], with the sign of [x]. *)
Definition modf (x : float) : float :=
  match trunc x with
  | Some z =>
      let f := x - of_Z z in
      if eq f 0 then (if signbit x then (-0)%float else 0%float) else f
  | None =>
      match Prim2SF x with
      | S754_infinity s => if s then (-0)%float else 0%float
      | _ => x
      end
  end.

(** Conversion of a [double] to [int]: truncation. A value that does not
    fit, an infinity and a NaN give [INT_MIN], as the conversion
    instruction of the x86-64 target does. *)
Definition to_int (x : float) : Z :=
  match trunc x with
  | Some z => if ((INT_MIN <=? z) && (z <=? INT_MAX))%Z then z else INT_MIN
  | None => INT_MIN
  end.

End Double.

(** The part of [<math.h>] the two nodes call and IEEE 754 leaves open. *)
Class Libm := {
  cos : float -> float;
  sin : float -> float;
  tan : float -> float;
  atan2 : float -> float -> float;
  hypot : float -> float -> float
}.

(** [int8_t]: the value an [int] has after it is stored in a [map_type]. *)
Definition map_type (z : Z) : Z := (z + 128) mod 256 - 128.

(* ------------------------------------------------------------------ *)
(** * ros::Time *)

Module RosTime.

Record Time := mkTime { sec : Z; nsec : Z }.

#[global] Instance Time_eq_dec : EqDecision Time.
Proof. solve_decision. Defined.

Definition toNSec (t : Time) : Z := sec t * 1000000000 + nsec t.
Definition fromNSec (n : Z) : Time :=
  mkTime (n / 1000000000) (n mod 1000000000).

(** [(a - b).toSec()] *)
Definition diff_sec (a b : Time) : float :=
  let d := fromNSec (toNSec a - toNSec b) in
  (Double.of_Z (sec d) + 1e-9 * Double.of_Z (nsec d))%float.

(** [t + ros::Duration(s)] and [t - ros::Duration(s)] for whole seconds. *)
Definition add_sec (t : Time) (s : Z) : Time :=
  fromNSec (toNSec t + s * 1000000000).
Definition sub_sec (t : Time) (s : Z) : Time :=
  fromNSec (toNSec t - s * 1000000000).

Definition ltb (a b : Time) : bool := toNSec a <? toNSec b.
Definition gtb (a b : Time) : bool := toNSec b <? toNSec a.

End RosTime.
Export RosTime(Time, mkTime, sec, nsec).

(* ------------------------------------------------------------------ *)
(** * The occupancy grid *)

Definition MAP_RES : float := 0.10.
Definition MAP_SIZE : Z := 5000.

(** [MAP_RES/2.0], the sampling step of every ray and arc. *)
Definition HALF_RES : float := (MAP_RES / 2.0)%float.

(** [round(x/MAP_RES) + MAP_SIZE/2] stored in an [int]. *)
Definition cell (x : float) : Z :=
  Double.to_int (Double.round (x / MAP_RES) + Double.of_Z (MAP_SIZE / 2))%float.

Definition in_map (i j : Z) : bool :=
  (0 <=? i) && (i <? MAP_SIZE) && (0 <=? j) && (j <? MAP_SIZE).

(** [map_data[k]] *)
Definition map_at (map_data : gmap Z Z) (k : Z) : Z :=
  default 0 (map_data !! k).

Definition map_get (map_data : gmap Z Z) (x y : float) : Z :=
  let i := cell x in
  let j := cell y in
  if in_map i j then map_at map_data (i * MAP_SIZE + j) else 0.

Definition map_set (map_data : gmap Z Z) (x y : float) (v : Z) : gmap Z Z :=
  let i := cell x in
  let j := cell y in
  if in_map i j then <[ i * MAP_SIZE + j := v ]> map_data else map_data.

(** The grid as [main] leaves it: every cell [0]. *)
Definition empty_map : gmap Z Z := ∅.

(* ------------------------------------------------------------------ *)
(** * Arcs *)

Module loc.
(** [struct loc]: the position and direction of the robot. *)
Record t := mk { x : float; y : float; pose : float }.
Definition zero : t := mk 0 0 0.
End loc.

(** [struct path] *)
Record path := mkPath { speed : float; radius : float }.

(** A sampled point [(x, y)]. *)
Definition point : Type := float * float.

Definition test_collision (map_data : gmap Z Z) (here : point) : bool :=
  negb (map_get map_data here.1 here.2 =? 0).

(** [dist(a, b)] *)
Definition dist {L : Libm} (a b : loc.t) : float :=
  hypot (loc.x a - loc.x b) (loc.y a - loc.y b).

Section Arcs.
Context {L : Libm}.
#[local] Open Scope float_scope.

(** The loop of [test_arc],
    [for (dist = 0; dist < l; dist += MAP_RES/2.0)], run for at most
    [fuel] iterations from [dist] on: the points handed to
    [test_collision], in order, and the value returned, if the loop
    returned within [fuel] iterations. [h] is the loop body's point. *)
Fixpoint test_arc_loop (fuel : nat) (map_data : gmap Z Z)
    (h : float -> point) (l dist : float) : list point * option bool :=
  match fuel with
  | O => ([], None)
  | S n =>
      if Double.lt dist l then
        if test_collision map_data (h dist) then ([h dist], Some false)
        else
          let '(seen, res) := test_arc_loop n map_data h l (dist + HALF_RES) in
          (h dist :: seen, res)
      else ([], Some true)
  end.

Definition test_arc_run (fuel : nat) (map_data : gmap Z Z)
    (start : loc.t) (r l : float) : list point * option bool :=
  if Double.ne r 0 then
    let theta := loc.pose start - Double.M_PI / 2 in
    let center_x := loc.x start + r * cos (loc.pose start + Double.M_PI / 2) in
    let center_y := loc.y start + r * sin (loc.pose start + Double.M_PI / 2) in
    test_arc_loop fuel map_data
      (fun dist => (r * cos (theta + dist / r) + center_x,
                    r * sin (theta + dist / r) + center_y)) l 0
  else
    test_arc_loop fuel map_data
      (fun dist => (loc.x start + dist * cos (loc.pose start),
                    loc.y start + dist * sin (loc.pose start))) l 0.

(** [test_arc(start, r, l)]; [None] when [fuel] iterations do not end the
    loop. *)
Definition test_arc (fuel : nat) (map_data : gmap Z Z)
    (start : loc.t) (r l : float) : option bool :=
  (test_arc_run fuel map_data start r l).2.

(** The points [test_arc(start, r, l)] hands to [test_collision], in the
    order of its loop, within [fuel] iterations. *)
Definition test_arc_points (fuel : nat) (map_data : gmap Z Z)
    (start : loc.t) (r l : float) : list point :=
  (test_arc_run fuel map_data start r l).1.

(** The loop of [arcToPath]: the poses pushed within [fuel] iterations and
    whether the loop has ended. *)
Fixpoint arcToPath_loop (fuel : nat) (h : float -> point) (l dist : float)
    : list point * bool :=
  match fuel with
  | O => ([], false)
  | S n =>
      if Double.lt dist l then
        let '(poses, ended) := arcToPath_loop n h l (dist + HALF_RES) in
        (h dist :: poses, ended)
      else ([], true)
  end.

Definition arcToPath_run (fuel : nat) (start : loc.t) (r l : float)
    : list point * bool :=
  if Double.ne r 0 then
    let theta := loc.pose start - Double.M_PI / 2 in
    let center_x := loc.x start + r * cos (loc.pose start + Double.M_PI / 2) in
    let center_y := loc.y start + r * sin (loc.pose start + Double.M_PI / 2) in
    arcToPath_loop fuel
      (fun dist => (r * cos (theta + dist / r) + center_x,
                    r * sin (theta + dist / r) + center_y)) l 0
  else
    arcToPath_loop fuel
      (fun dist => (loc.x start + dist * cos (loc.pose start),
                    loc.y start + dist * sin (loc.pose start))) l 0.

(** [arcToPath(start, r, l).poses]; every pose carries [position_frame]. *)
Definition arcToPath (fuel : nat) (start : loc.t) (r l : float)
    : option (list point) :=
  let '(poses, ended) := arcToPath_run fuel start r l in
  if ended then Some poses else None.

Definition arc_end (start : loc.t) (r l : float) : loc.t :=
  if Double.ne r 0 then
    let theta := loc.pose start - Double.M_PI / 2 in
    let center_x := loc.x start + r * cos (loc.pose start + Double.M_PI / 2) in
    let center_y := loc.y start + r * sin (loc.pose start + Double.M_PI / 2) in
    loc.mk (center_x + r * cos (theta + l / r))
           (center_y + r * sin (theta + l / r))
           (theta + l / r)
  else
    loc.mk (loc.x start + l * cos (loc.pose start))
           (loc.y start + l * sin (loc.pose start))
           (loc.pose start).

End Arcs.

(* ------------------------------------------------------------------ *)
(** * The planner's globals *)

(** [enum pstate]; a global of this type starts as [BACKING], its first
    enumerator. *)
Inductive pstate := BACKING | FORWARD | CONE.

#[global] Instance pstate_eq_dec : EqDecision pstate.
Proof. solve_decision. Defined.

(** [geometry_msgs::PointStamped] *)
Record PointStamped := mkPointStamped {
  frame_id : string;
  stamp : Time;
  point_x : float;
  point_y : float;
  point_z : float
}.

(** [sensor_msgs::LaserScan], as the two nodes read it; its [float] fields
    are read into doubles. *)
Record LaserScan := mkLaserScan {
  scan_frame_id : string;
  scan_stamp : Time;
  angle_min : float;
  angle_increment : float;
  range_min : float;
  ranges : list float
}.

(** [loc(const geometry_msgs::PointStamped &)] *)
Definition loc_of_point (p : PointStamped) : loc.t :=
  loc.mk (point_x p) (point_y p) 0.

(** What a callback publishes: on [cmd_vel] (linear.x, angular.z), on [path]
    (frame and poses) and on [goal_reached]. *)
Inductive output :=
  | Cmd (linear angular : float)
  | PathMsg (frame : string) (poses : list point)
  | Done (data : bool).

Record planner := mkPlanner {
  min_radius : float;
  max_radius : float;
  goal_err : float;
  cone_dist : float;
  max_speed : float;
  min_speed : float;
  planner_lookahead : float;
  max_accel : float;
  backup_time : float;
  backup_dist : float;
  backup_radius : float;
  stuck_timeout : float;
  cone_timeout : float;
  cone_speed : float;
  track_cones : bool;
  active : bool;
  position_frame : string;
  map_data : gmap Z Z;
  done_time : Time;
  planner_state : pstate;
  planner_timeout : Time;
  backup_pose : loc.t;
  cones : list point;
  cone : float;
  cone_time : Time;
  bump : bool;
  pattern_center : loc.t;
  goal_msg : PointStamped;
  last_loc : loc.t;
  last_pose : loc.t
}.

Definition set_active (v : bool) (st : planner) : planner :=
  mkPlanner (min_radius st) (max_radius st) (goal_err st) (cone_dist st)
    (max_speed st) (min_speed st) (planner_lookahead st) (max_accel st)
    (backup_time st) (backup_dist st) (backup_radius st) (stuck_timeout st)
    (cone_timeout st) (cone_speed st) (track_cones st) v (position_frame st)
    (map_data st) (done_time st) (planner_state st) (planner_timeout st)
    (backup_pose st) (cones st) (cone st) (cone_time st) (bump st)
    (pattern_center st) (goal_msg st) (last_loc st) (last_pose st).

Definition set_position_frame (v : string) (st : planner) : planner :=
  mkPlanner (min_radius st) (max_radius st) (goal_err st) (cone_dist st)
    (max_speed st) (min_speed st) (planner_lookahead st) (max_accel st)
    (backup_time st) (backup_dist st) (backup_radius st) (stuck_timeout st)
    (cone_timeout st) (cone_speed st) (track_cones st) (active st) v
    (map_data st) (done_time st) (planner_state st) (planner_timeout st)
    (backup_pose st) (cones st) (cone st) (cone_time st) (bump st)
    (pattern_center st) (goal_msg st) (last_loc st) (last_pose st).

Definition set_map_data (v : gmap Z Z) (st : planner) : planner :=
  mkPlanner (min_radius st) (max_radius st) (goal_err st) (cone_dist st)
    (max_speed st) (min_speed st) (planner_lookahead st) (max_accel st)
    (backup_time st) (backup_dist st) (backup_radius st) (stuck_timeout st)
    (cone_timeout st) (cone_speed st) (track_cones st) (active st)
    (position_frame st) v (done_time st) (planner_state st)
    (planner_timeout st) (backup_pose st) (cones st) (cone st)
    (cone_time st) (bump st) (pattern_center st) (goal_msg st) (last_loc st)
    (last_pose st).

Definition set_done_time (v : Time) (st : planner) : planner :=
  mkPlanner (min_radius st) (max_radius st) (goal_err st) (cone_dist st)
    (max_speed st) (min_speed st) (planner_lookahead st) (max_accel st)
    (backup_time st) (backup_dist st) (backup_radius st) (stuck_timeout st)
    (cone_timeout st) (cone_speed st) (track_cones st) (active st)
    (position_frame st) (map_data st) v (planner_state st)
    (planner_timeout st) (backup_pose st) (cones st) (cone st)
    (cone_time st) (bump st) (pattern_center st) (goal_msg st) (last_loc st)
    (last_pose st).

Definition set_planner_state (v : pstate) (st : planner) : planner :=
  mkPlanner (min_radius st) (max_radius st) (goal_err st) (cone_dist st)
    (max_speed st) (min_speed st) (planner_lookahead st) (max_accel st)
    (backup_time st) (backup_dist st) (backup_radius st) (stuck_timeout st)
    (cone_timeout st) (cone_speed st) (track_cones st) (active st)
    (position_frame st) (map_data st) (done_time st) v (planner_timeout st)
    (backup_pose st) (cones st) (cone st) (cone_time st) (bump st)
    (pattern_center st) (goal_msg st) (last_loc st) (last_pose st).

Definition set_planner_timeout (v : Time) (st : planner) : planner :=
  mkPlanner (min_radius st) (max_radius st) (goal_err st) (cone_dist st)
    (max_speed st) (min_speed st) (planner_lookahead st) (max_accel st)
    (backup_time st) (backup_dist st) (backup_radius st) (stuck_timeout st)
    (cone_timeout st) (cone_speed st) (track_cones st) (active st)
    (position_frame st) (map_data st) (done_time st) (planner_state st) v
    (backup_pose st) (cones st) (cone st) (cone_time st) (bump st)
    (pattern_center st) (goal_msg st) (last_loc st) (last_pose st).

Definition set_backup_pose (v : loc.t) (st : planner) : planner :=
  mkPlanner (min_radius st) (max_radius st) (goal_err st) (cone_dist st)
    (max_speed st) (min_speed st) (planner_lookahead st) (max_accel st)
    (backup_time st) (backup_dist st) (backup_radius st) (stuck_timeout st)
    (cone_timeout st) (cone_speed st) (track_cones st) (active st)
    (position_frame st) (map_data st) (done_time st) (planner_state st)
    (planner_timeout st) v (cones st) (cone st) (cone_time st) (bump st)
    (pattern_center st) (goal_msg st) (last_loc st) (last_pose st).

Definition set_backup_radius (v : float) (st : planner) : planner :=
  mkPlanner (min_radius st) (max_radius st) (goal_err st) (cone_dist st)
    (max_speed st) (min_speed st) (planner_lookahead st) (max_accel st)
    (backup_time st) (backup_dist st) v (stuck_timeout st) (cone_timeout st)
    (cone_speed st) (track_cones st) (active st) (position_frame st)
    (map_data st) (done_time st) (planner_state st) (planner_timeout st)
    (backup_pose st) (cones st) (cone st) (cone_time st) (bump st)
    (pattern_center st) (goal_msg st) (last_loc st) (last_pose st).

Definition set_cones (v : list point) (st : planner) : planner :=
  mkPlanner (min_radius st) (max_radius st) (goal_err st) (cone_dist st)
    (max_speed st) (min_speed st) (planner_lookahead st) (max_accel st)
    (backup_time st) (backup_dist st) (backup_radius st) (stuck_timeout st)
    (cone_timeout st) (cone_speed st) (track_cones st) (active st)
    (position_frame st) (map_data st) (done_time st) (planner_state st)
    (planner_timeout st) (backup_pose st) v (cone st) (cone_time st)
    (bump st) (pattern_center st) (goal_msg st) (last_loc st) (last_pose st).

Definition set_cone (v : float) (st : planner) : planner :=
  mkPlanner (min_radius st) (max_radius st) (goal_err st) (cone_dist st)
    (max_speed st) (min_speed st) (planner_lookahead st) (max_accel st)
    (backup_time st) (backup_dist st) (backup_radius st) (stuck_timeout st)
    (cone_timeout st) (cone_speed st) (track_cones st) (active st)
    (position_frame st) (map_data st) (done_time st) (planner_state st)
    (planner_timeout st) (backup_pose st) (cones st) v (cone_time st)
    (bump st) (pattern_center st) (goal_msg st) (last_loc st) (last_pose st).

Definition set_cone_time (v : Time) (st : planner) : planner :=
  mkPlanner (min_radius st) (max_radius st) (goal_err st) (cone_dist st)
    (max_speed st) (min_speed st) (planner_lookahead st) (max_accel st)
    (backup_time st) (backup_dist st) (backup_radius st) (stuck_timeout st)
    (cone_timeout st) (cone_speed st) (track_cones st) (active st)
    (position_frame st) (map_data st) (done_time st) (planner_state st)
    (planner_timeout st) (backup_pose st) (cones st) (cone st) v (bump st)
    (pattern_center st) (goal_msg st) (last_loc st) (last_pose st).

Definition set_bump (v : bool) (st : planner) : planner :=
  mkPlanner (min_radius st) (max_radius st) (goal_err st) (cone_dist st)
    (max_speed st) (min_speed st) (planner_lookahead st) (max_accel st)
    (backup_time st) (backup_dist st) (backup_radius st) (stuck_timeout st)
    (cone_timeout st) (cone_speed st) (track_cones st) (active st)
    (position_frame st) (map_data st) (done_time st) (planner_state st)
    (planner_timeout st) (backup_pose st) (cones st) (cone st)
    (cone_time st) v (pattern_center st) (goal_msg st) (last_loc st)
    (last_pose st).

Definition set_pattern_center (v : loc.t) (st : planner) : planner :=
  mkPlanner (min_radius st) (max_radius st) (goal_err st) (cone_dist st)
    (max_speed st) (min_speed st) (planner_lookahead st) (max_accel st)
    (backup_time st) (backup_dist st) (backup_radius st) (stuck_timeout st)
    (cone_timeout st) (cone_speed st) (track_cones st) (active st)
    (position_frame st) (map_data st) (done_time st) (planner_state st)
    (planner_timeout st) (backup_pose st) (cones st) (cone st)
    (cone_time st) (bump st) v (goal_msg st) (last_loc st) (last_pose st).

Definition set_goal_msg (v : PointStamped) (st : planner) : planner :=
  mkPlanner (min_radius st) (max_radius st) (goal_err st) (cone_dist st)
    (max_speed st) (min_speed st) (planner_lookahead st) (max_accel st)
    (backup_time st) (backup_dist st) (backup_radius st) (stuck_timeout st)
    (cone_timeout st) (cone_speed st) (track_cones st) (active st)
    (position_frame st) (map_data st) (done_time st) (planner_state st)
    (planner_timeout st) (backup_pose st) (cones st) (cone st)
    (cone_time st) (bump st) (pattern_center st) v (last_loc st)
    (last_pose st).

Definition set_last_loc (v : loc.t) (st : planner) : planner :=
  mkPlanner (min_radius st) (max_radius st) (goal_err st) (cone_dist st)
    (max_speed st) (min_speed st) (planner_lookahead st) (max_accel st)
    (backup_time st) (backup_dist st) (backup_radius st) (stuck_timeout st)
    (cone_timeout st) (cone_speed st) (track_cones st) (active st)
    (position_frame st) (map_data st) (done_time st) (planner_state st)
    (planner_timeout st) (backup_pose st) (cones st) (cone st)
    (cone_time st) (bump st) (pattern_center st) (goal_msg st) v
    (last_pose st).

Definition set_last_pose (v : loc.t) (st : planner) : planner :=
  mkPlanner (min_radius st) (max_radius st) (goal_err st) (cone_dist st)
    (max_speed st) (min_speed st) (planner_lookahead st) (max_accel st)
    (backup_time st) (backup_dist st) (backup_radius st) (stuck_timeout st)
    (cone_timeout st) (cone_speed st) (track_cones st) (active st)
    (position_frame st) (map_data st) (done_time st) (planner_state st)
    (planner_timeout st) (backup_pose st) (cones st) (cone st)
    (cone_time st) (bump st) (pattern_center st) (goal_msg st) (last_loc st)
    v.

(** The globals as their initialisers and [main] leave them. *)
Definition initial_planner : planner :=
  mkPlanner 0.695 4.0 0.3 6.0 1.5 0.1 4.0 0.3 10.0 1.0 0.0 2.0 1.0 0.4
    false false "" empty_map (mkTime 0 0) BACKING (mkTime 0 0) loc.zero
    [] 0%float (mkTime 0 0) false loc.zero
    (mkPointStamped "" (mkTime 0 0) 0 0 0) loc.zero loc.zero.

(** [planner_timeout.sec = 0] *)
Definition clear_timeout (st : planner) : planner :=
  set_planner_timeout (mkTime 0 (nsec (planner_timeout st))) st.

(* ------------------------------------------------------------------ *)
(** * plan_path *)

Section Planner.
Context {L : Libm}.
#[local] Open Scope float_scope.

(** [while( alpha > 2.0*M_PI ) alpha -= M_PI * 4.0;] *)
Fixpoint wrap_down (fuel : nat) (alpha : float) : option float :=
  match fuel with
  | O => None
  | S n =>
      if Double.gt alpha (2.0 * Double.M_PI)
      then wrap_down n (alpha - Double.M_PI * 4.0)
      else Some alpha
  end.

(** [while( alpha < -2.0*M_PI ) alpha += M_PI * 4.0;] *)
Fixpoint wrap_up (fuel : nat) (alpha : float) : option float :=
  match fuel with
  | O => None
  | S n =>
      if Double.lt alpha (-2.0 * Double.M_PI)
      then wrap_up n (alpha + Double.M_PI * 4.0)
      else Some alpha
  end.

(** The tangent arc through the goal, lines 431-465: the folded angle
    [alpha], the radius and the arc length handed to [test_arc]. *)
Definition tangent_arc (fuel : nat) (st : planner) (d theta : float)
    (start : loc.t) : option (float * float * float) :=
  let alpha := 2.0 * (theta - loc.pose start) in
  alpha ← wrap_down fuel alpha;
  alpha ← wrap_up fuel alpha;
  let arc_len := alpha in
  let alpha := if Double.gt alpha Double.M_PI
               then Double.M_PI * 2.0 - alpha else alpha in
  let alpha := if Double.lt alpha (- Double.M_PI)
               then - Double.M_PI * 2.0 - alpha else alpha in
  let beta := (Double.M_PI - Double.fabs alpha) / 2.0 in
  let radius := d * sin beta / sin alpha in
  let radius :=
    if Double.gt (Double.fabs arc_len) Double.M_PI then
      if Double.gt radius 0 then min_radius st else - min_radius st
    else radius in
  let arc_len := arc_len * radius in
  let '(radius, arc_len) :=
    if Double.lt (Double.fabs radius) (min_radius st)
    then (0, min_radius st) else (radius, arc_len) in
  let radius := Double.min radius (max_radius st) in
  let radius := Double.max radius (- max_radius st) in
  let arc_len := Double.min arc_len (planner_lookahead st) in
  Some (alpha, radius, arc_len).

(** The radii tried when the tangent arc is blocked, lines 471-487: the
    straight line, then [min_radius*i] and [-min_radius*i] for
    [i = 1, 2, 4, 8]; those that pass [test_arc], in that order. *)
Definition try_arc (fuel : nat) (st : planner) (start : loc.t)
    (r l : float) (arcs : list float) : option (list float) :=
  ok ← test_arc fuel (map_data st) start r l;
  Some (if ok : bool then arcs ++ [r] else arcs).

Fixpoint try_radii (fuel : nat) (st : planner) (start : loc.t)
    (traverse_dist : float) (ks : list Z) (arcs : list float)
    : option (list float) :=
  match ks with
  | [] => Some arcs
  | i :: ks' =>
      let d := Double.min traverse_dist
                 (min_radius st * Double.of_Z i * Double.M_PI / 2) in
      arcs ← try_arc fuel st start (min_radius st * Double.of_Z i) d arcs;
      arcs ← try_arc fuel st start (- min_radius st * Double.of_Z i) d arcs;
      try_radii fuel st start traverse_dist ks' arcs
  end.

Definition candidate_arcs (fuel : nat) (st : planner) (start : loc.t)
    (traverse_dist : float) : option (list float) :=
  arcs ← try_arc fuel st start 0 traverse_dist [];
  try_radii fuel st start traverse_dist [1; 2; 4; 8]%Z arcs.

(** The distance the selection loop gives the radius [r], lines 517-519. *)
Definition arc_score (start goal : loc.t) (traverse_dist r : float) : float :=
  let l := Double.min traverse_dist (r * Double.M_PI / 2) in
  let e := arc_end start r l in
  dist e goal.

(** The selection loop, lines 511-524: [best_r] after the loop. *)
Definition choose_arc (start goal : loc.t) (traverse_dist : float)
    (first : float) (arcs : list float) : float :=
  fst (fold_left
         (fun '(best_r, min_dist) r =>
            let d := arc_score start goal traverse_dist r in
            if Double.lt d min_dist then (r, d) else (best_r, min_dist))
         arcs (first, arc_score start goal traverse_dist first)).

(** [case BACKING] *)
Definition plan_backing (now : Time) (st : planner) (start : loc.t)
    : path * planner * list output :=
  let p := mkPath (-2.0 * min_speed st) (backup_radius st) in
  let st :=
    if Double.gt (RosTime.diff_sec now (planner_timeout st)) (backup_time st)
    then clear_timeout (set_planner_state FORWARD st) else st in
  let st :=
    if Double.gt (dist start (backup_pose st)) (backup_dist st)
    then clear_timeout (set_planner_state FORWARD st) else st in
  (p, st, []).

(** [case CONE] *)
Definition plan_cone (now : Time) (st : planner) (start : loc.t)
    : path * planner * list output :=
  let speed := cone_speed st in
  let radius :=
    if Double.lt (RosTime.diff_sec now (cone_time st)) (cone_timeout st)
    then speed / (cone st * 1.4)
    else 2.0 in
  let p := mkPath speed radius in
  let '(p, st, out) :=
    if bump st then
      (mkPath 0 0,
       set_active false
         (set_planner_state BACKING
            (set_backup_pose start (set_planner_timeout now st))),
       [Done true])
    else (p, st, []) in
  if RosTime.ltb (RosTime.add_sec (planner_timeout st) 60) now then
    (mkPath 0 0, set_active false (set_planner_state FORWARD st),
     out ++ [Done false])
  else (p, st, out).

(** [min(max_speed, max_speed * (2.0 * len / planner_lookahead))], lines
    422-423 and 528. *)
Definition target_speed (st : planner) (len : float) : float :=
  Double.min (max_speed st)
    (max_speed st * (2.0 * len / planner_lookahead st)).

(** [if( speed < min_speed) speed = min_speed;], line 424. *)
Definition at_least_min_speed (st : planner) (speed : float) : float :=
  if Double.lt speed (min_speed st) then min_speed st else speed.

(** [case FORWARD] *)
Definition plan_forward (fuel : nat) (now : Time) (st : planner)
    (start goal : loc.t) (d : float)
    : option (path * planner * list output) :=
  if Double.lt d (goal_err st) then
    let st := set_active false st in
    if Double.gt (RosTime.diff_sec now (done_time st)) 0.5
    then Some (mkPath 0 0, set_done_time now st, [Done true])
    else Some (mkPath 0 0, st, [])
  else
    let theta := atan2 (loc.y goal - loc.y start) (loc.x goal - loc.x start) in
    let traverse_dist := Double.min d (planner_lookahead st) in
    let speed := target_speed st traverse_dist in
    let speed := at_least_min_speed st speed in
    '(alpha, radius, arc_len) ← tangent_arc fuel st d theta start;
    ok ← test_arc fuel (map_data st) start radius arc_len;
    if negb ok then
      arcs ← candidate_arcs fuel st start traverse_dist;
      match arcs with
      | [] =>
          let st :=
            if negb (sec (planner_timeout st) =? 0)%Z then
              if Double.gt (RosTime.diff_sec now (planner_timeout st))
                   (stuck_timeout st)
              then
                set_planner_timeout now
                  (set_backup_pose start
                     (set_backup_radius
                        (if Double.gt alpha 0 then - min_radius st
                         else min_radius st)
                        (set_planner_state BACKING st)))
              else st
            else set_planner_timeout now st in
          Some (mkPath 0 0, st, [])
      | first :: _ =>
          let best_r := choose_arc start goal traverse_dist first arcs in
          let arc_len := Double.fabs (best_r * Double.M_PI / 2) in
          let arc_len := if Double.eq best_r 0 then traverse_dist else arc_len in
          let speed := target_speed st arc_len in
          poses ← arcToPath fuel start best_r (Double.min traverse_dist arc_len);
          Some (mkPath speed best_r, clear_timeout st,
                [PathMsg (position_frame st) poses])
      end
    else
      poses ← arcToPath fuel start radius arc_len;
      Some (mkPath speed radius, clear_timeout st,
            [PathMsg (position_frame st) poses]).

(** [plan_path(start, end)]; [None] when one of its loops needs more than
    [fuel] iterations. *)
Definition plan_path (fuel : nat) (now : Time) (st : planner)
    (start goal : loc.t) : option (path * planner * list output) :=
  let d := dist start goal in
  let st :=
    if track_cones st && Double.lt d (cone_dist st)
       && bool_decide (planner_state st = FORWARD)
    then set_planner_timeout now
           (set_pattern_center start (set_planner_state CONE st))
    else st in
  match planner_state st with
  | BACKING => Some (plan_backing now st start)
  | CONE => Some (plan_cone now st start)
  | FORWARD => plan_forward fuel now st start goal d
  end.

End Planner.

(* ------------------------------------------------------------------ *)
(** * The planner's callbacks *)

(** The two calls on [tf2_buffer]. *)
Class Tf2 := {
  canTransform : string -> string -> Time -> bool;
  transform : PointStamped -> string -> PointStamped
}.

(** [nav_msgs::Odometry], as [positionCallback] reads it; [odom_yaw] is
    [tf::getYaw] of the orientation. *)
Record Odometry := mkOdometry {
  odom_frame_id : string;
  odom_x : float;
  odom_y : float;
  odom_yaw : float;
  odom_linear_x : float
}.

(** [path_planner::PathPlannerConfig] *)
Record PathPlannerConfig := mkConfig {
  cfg_goal_err : float;
  cfg_cone_dist : float;
  cfg_max_speed : float;
  cfg_min_speed : float;
  cfg_planner_lookahead : float;
  cfg_max_accel : float;
  cfg_backup_dist : float;
  cfg_stuck_timeout : float;
  cfg_cone_timeout : float;
  cfg_cone_speed : float;
  cfg_track_cones : bool;
  cfg_min_radius : float;
  cfg_max_radius : float
}.

Definition goalCallback (msg : PointStamped) (st : planner) : planner :=
  set_active true (set_goal_msg msg st).

Definition bumpCb (data : bool) (st : planner) : planner := set_bump data st.

Definition conesCb (points : list point) (st : planner) : planner :=
  set_cones points st.

Definition visionCb (now : Time) (data : float) (st : planner) : planner :=
  set_cone data (set_cone_time now st).

Definition reconfigureCb (c : PathPlannerConfig) (st : planner) : planner :=
  mkPlanner (cfg_min_radius c) (cfg_max_radius c) (cfg_goal_err c)
    (cfg_cone_dist c) (cfg_max_speed c) (cfg_min_speed c)
    (cfg_planner_lookahead c) (cfg_max_accel c) (backup_time st)
    (cfg_backup_dist c) (backup_radius st) (cfg_stuck_timeout c)
    (cfg_cone_timeout c) (cfg_cone_speed c) (cfg_track_cones c) (active st)
    (position_frame st) (map_data st) (done_time st) (planner_state st)
    (planner_timeout st) (backup_pose st) (cones st) (cone st)
    (cone_time st) (bump st) (pattern_center st) (goal_msg st) (last_loc st)
    (last_pose st).

Section PositionCallback.
Context {L : Libm} {T : Tf2}.
#[local] Open Scope float_scope.

(** "limit acceleration", lines 608-621 *)
Definition limit_accel (st : planner) (speed current_speed : float) : float :=
  if Double.gt speed 0 then
    if Double.gt current_speed 0
    then Double.min speed (current_speed + max_accel st)
    else max_accel st
  else if Double.lt speed 0 then
    if Double.lt current_speed 0
    then Double.max speed (current_speed - max_accel st)
    else - max_accel st
  else speed.

(** [cmd.angular.z], lines 627-631 *)
Definition angular_z (speed radius : float) : float :=
  if Double.ne radius 0 then speed / radius else 0.

(** The goal in the frame of the odometry message, lines 583-596; [None] is
    the [return] of the error branch. *)
Definition goal_in_frame (st : planner) (pose_frame : string)
    : option planner :=
  if bool_decide (pose_frame ≠ frame_id (goal_msg st)) then
    if canTransform pose_frame (frame_id (goal_msg st)) (stamp (goal_msg st))
    then Some (set_goal_msg (transform (goal_msg st) pose_frame) st)
    else None
  else Some st.

(** [positionCallback]: the globals after the call and what it published;
    [None] when a loop of [plan_path] needs more than [fuel] iterations. *)
Definition positionCallback (fuel : nat) (now : Time) (msg : Odometry)
    (st : planner) : option (planner * list output) :=
  let here := loc.mk (odom_x msg) (odom_y msg) (odom_yaw msg) in
  let st := set_last_loc here st in
  let st := set_last_pose here st in
  let pose_frame := odom_frame_id msg in
  let st := set_position_frame pose_frame st in
  match goal_in_frame st pose_frame with
  | None => Some (st, [])
  | Some st =>
      let goal := loc_of_point (goal_msg st) in
      if active st then
        '(p, st, out) ← plan_path fuel now st here goal;
        let speed := limit_accel st (speed p) (odom_linear_x msg) in
        Some (st, out ++ [Cmd speed (angular_z speed (radius p))])
      else Some (st, [Cmd 0 0])
  end.

End PositionCallback.

(* ------------------------------------------------------------------ *)
(** * laserCallback of the planner: merge and footprint *)

Definition LOCAL_MAP_SIZE : Z := 150.
Definition LASER_OFFSET : float := 0.26.

(** [round(x/MAP_RES) + LOCAL_MAP_SIZE/2] stored in an [int]. *)
Definition local_cell (x : float) : Z :=
  Double.to_int
    (Double.round (x / MAP_RES) + Double.of_Z (LOCAL_MAP_SIZE / 2))%float.

(** [j > 0 && k > 0 && j < LOCAL_MAP_SIZE && k < LOCAL_MAP_SIZE] *)
Definition in_local (j k : Z) : bool :=
  (0 <? j) && (0 <? k) && (j <? LOCAL_MAP_SIZE) && (k <? LOCAL_MAP_SIZE).

(** [local_map[k]]. The buffer holds [LOCAL_MAP_SIZE * LOCAL_MAP_SIZE]
    cells, zeroed by [memset]; the inflation loop also reads up to
    [LOCAL_MAP_SIZE] cells past its end, where it finds what the heap
    holds, [beyond k]. *)
Definition local_at (beyond : Z -> Z) (local_map : gmap Z Z) (k : Z) : Z :=
  if k <? LOCAL_MAP_SIZE * LOCAL_MAP_SIZE then map_at local_map k
  else beyond k.

(** The SCIP1.1 status codes in a range below [range_min], lines 686-697:
    the range to trace, or [None] for [status = 0]. *)
Definition decode_range (range_min r : float) : option float :=
  if Double.lt r range_min then
    if Double.eq r 0 then Some 22.0%float
    else if Double.lt 0.0055 r && Double.lt r 0.0065 then Some 5.7%float
    else if Double.lt 0.0155 r && Double.lt r 0.0165 then Some 5.0%float
    else None
  else Some r.

(** The radii of the inflation loop,
    [for( int r=1; r<(0.4/MAP_RES); r++ )]. *)
Definition grow_radii : list Z :=
  filter (fun r => Double.lt (Double.of_Z r) (0.4 / MAP_RES) = true)
    (seqZ 1 8).

(** The body of the inflation loop at [(i, j)], lines 735-746. *)
Definition grow_cell (beyond : Z -> Z) (r : Z) (local_map : gmap Z Z)
    (i j : Z) : gmap Z Z :=
  let n := LOCAL_MAP_SIZE in
  let at_ := local_at beyond local_map in
  if at_ (i * n + j) <=? 0 then
    let m := local_map in
    let m := if (0 <? i) && (at_ ((i - 1) * n + j) =? r)
             then <[ i * n + j := r + 1 ]> m else m in
    let m := if (0 <? j) && (at_ (i * n + j - 1) =? r)
             then <[ i * n + j := r + 1 ]> m else m in
    let m := if (i <? n) && (at_ ((i + 1) * n + j) =? r)
             then <[ i * n + j := r + 1 ]> m else m in
    let m := if (j <? n) && (at_ (i * n + j + 1) =? r)
             then <[ i * n + j := r + 1 ]> m else m in
    m
  else local_map.

(** "grow obstacles by radius of robot", lines 732-749. *)
Definition grow (beyond : Z -> Z) (local_map : gmap Z Z) : gmap Z Z :=
  fold_left
    (fun m r =>
       fold_left
         (fun m i =>
            fold_left (fun m j => grow_cell beyond r m i j)
              (seqZ 0 LOCAL_MAP_SIZE) m)
         (seqZ 0 LOCAL_MAP_SIZE) m)
    grow_radii local_map.

Section LaserCallback.
Context {L : Libm}.
#[local] Open Scope float_scope.

(** One ray, lines 699-710: free cells from the laser out to [r], until the
    ray leaves the local map. *)
Fixpoint trace_ray (fuel : nat) (offset_x offset_y theta r d : float)
    (local_map : gmap Z Z) : option (gmap Z Z) :=
  match fuel with
  | O => None
  | S n =>
      if Double.lt d r then
        let x := offset_x + d * cos theta in
        let y := offset_y + d * sin theta in
        let j := local_cell x in
        let k := local_cell y in
        if in_local j k then
          trace_ray n offset_x offset_y theta r (d + HALF_RES)
            (<[ (j * LOCAL_MAP_SIZE + k)%Z := (-1)%Z ]> local_map)
        else Some local_map
      else Some local_map
  end.

(** "for each laser scan point, raytrace", lines 681-712. *)
Fixpoint raytrace (fuel : nat) (msg : LaserScan) (offset_x offset_y : float)
    (rs : list float) (theta : float) (local_map : gmap Z Z)
    : option (gmap Z Z) :=
  match rs with
  | [] => Some local_map
  | r :: rs' =>
      local_map ←
        match decode_range (range_min msg) r with
        | Some r' => trace_ray fuel offset_x offset_y theta r' 0 local_map
        | None => Some local_map
        end;
      raytrace fuel msg offset_x offset_y rs' (theta + angle_increment msg)
        local_map
  end.

(** "mark obstacles", lines 715-728. *)
Fixpoint mark_obstacles (msg : LaserScan) (offset_x offset_y : float)
    (rs : list float) (theta : float) (local_map : gmap Z Z) : gmap Z Z :=
  match rs with
  | [] => local_map
  | r :: rs' =>
      let local_map :=
        if Double.gt r (range_min msg) then
          let x := offset_x + r * cos theta in
          let y := offset_y + r * sin theta in
          let j := local_cell x in
          let k := local_cell y in
          if in_local j k then <[ (j * LOCAL_MAP_SIZE + k)%Z := 1%Z ]> local_map
          else local_map
        else local_map in
      mark_obstacles msg offset_x offset_y rs' (theta + angle_increment msg)
        local_map
  end.

(** The local map of a scan, lines 658-749; [None] when a ray needs more
    than [fuel] steps. *)
Definition build_local_map (fuel : nat) (msg : LaserScan) (beyond : Z -> Z)
    (here : loc.t) : option (gmap Z Z) :=
  let theta_base := loc.pose here in
  let theta := theta_base + angle_min msg in
  let offset_x := Double.modf (loc.x here / MAP_RES) * MAP_RES in
  let offset_y := Double.modf (loc.y here / MAP_RES) * MAP_RES in
  let offset_x := offset_x + LASER_OFFSET * cos theta_base in
  let offset_y := offset_y + LASER_OFFSET * sin theta_base in
  local_map ← raytrace fuel msg offset_x offset_y (ranges msg) theta ∅;
  let local_map :=
    mark_obstacles msg offset_x offset_y (ranges msg) theta local_map in
  Some (grow beyond local_map).

(** The body of the merge loop at [(i, j)], lines 756-764. *)
Definition merge_value (local global : Z) : Z :=
  let tmp := map_type (0 + local) in
  let tmp := if (0 <? tmp)%Z then 2%Z else tmp in
  let tmp := map_type (tmp + global) in
  let tmp := if (4 <? tmp)%Z then 4%Z else tmp in
  let tmp := if (tmp <? 0)%Z then 0%Z else tmp in
  tmp.

Definition merge_cell (local_map : gmap Z Z) (offset_x offset_y : float)
    (g : gmap Z Z) (i j : Z) : gmap Z Z :=
  let x := Double.of_Z (i - LOCAL_MAP_SIZE / 2) * MAP_RES + offset_x in
  let y := Double.of_Z (j - LOCAL_MAP_SIZE / 2) * MAP_RES + offset_y in
  map_set g x y
    (merge_value (map_at local_map (i * LOCAL_MAP_SIZE + j)) (map_get g x y)).

(** "merge into global map", lines 752-766 *)
Definition merge_local (local_map : gmap Z Z) (here : loc.t) (g : gmap Z Z)
    : gmap Z Z :=
  let offset_x := Double.round (loc.x here / MAP_RES) * MAP_RES in
  let offset_y := Double.round (loc.y here / MAP_RES) * MAP_RES in
  fold_left
    (fun g i =>
       fold_left (fun g j => merge_cell local_map offset_x offset_y g i j)
         (seqZ 0 LOCAL_MAP_SIZE) g)
    (seqZ 0 LOCAL_MAP_SIZE) g.

(** The values a loop [for (v = from; continue(v); v += MAP_RES/2.0)] takes
    in its first [fuel] iterations. *)
Fixpoint loop_values (fuel : nat) (continue : float -> bool) (v : float)
    : list float :=
  match fuel with
  | O => []
  | S n => if continue v then v :: loop_values n continue (v + HALF_RES) else []
  end.

(** [for( double bx = -0.16; bx <= 0.16; bx += MAP_RES/2.0 )] *)
Definition footprint_bx : list float :=
  loop_values 32 (fun bx => Double.le bx 0.16) (-0.16).

(** [for( double by = -0.17; by < 0.45; by += MAP_RES/2.0 )] *)
Definition footprint_by : list float :=
  loop_values 32 (fun by_ => Double.lt by_ 0.45) (-0.17).

(** "clear out base footprint", lines 768-776 *)
Definition clear_footprint (here : loc.t) (g : gmap Z Z) : gmap Z Z :=
  let theta := loc.pose here in
  fold_left
    (fun g bx =>
       fold_left
         (fun g by_ =>
            let x := bx * cos theta + loc.x here in
            let y := by_ * sin theta + loc.y here in
            map_set g x y 0)
         footprint_by g)
    footprint_bx g.

(** [laserCallback]; [None] when a ray needs more than [fuel] steps. *)
Definition laserCallback (fuel : nat) (msg : LaserScan) (beyond : Z -> Z)
    (st : planner) : option planner :=
  let here := last_loc st in
  local_map ← build_local_map fuel msg beyond here;
  Some (set_map_data
          (clear_footprint here (merge_local local_map here (map_data st)))
          st).

End LaserCallback.

(* ------------------------------------------------------------------ *)
(** * cone_detector.cpp *)

Module ConeDetector.

(** [geometry_msgs::Point] *)
Record Point := mkPoint { x : float; y : float; z : float }.

(** [listener.transformPoint("/odom", a, b)]: [b], or [None] when it throws
    [tf::TransformException]. *)
Class Listener := {
  transformPoint : string -> PointStamped -> option PointStamped
}.

(** [cone_type]: last seen and point. *)
Definition cone_type : Type := Time * Point.

(** The members of [class ConeDetector] the callbacks read and write. *)
Record detector := mkDetector {
  cones : list cone_type;
  grouping_threshold : float;
  min_circle_size : Z;
  std_dev_threshold : float;
  same_cone_threshold : float;
  min_cone_radius : float;
  max_cone_radius : float
}.

Definition set_cones (v : list cone_type) (det : detector) : detector :=
  mkDetector v (grouping_threshold det) (min_circle_size det)
    (std_dev_threshold det) (same_cone_threshold det) (min_cone_radius det)
    (max_cone_radius det).

(** The detector as its constructor leaves it. *)
Definition initial_detector : detector :=
  mkDetector [] 0.05 4 15.0 0.25 0.1 0.2.

(** [visualization_msgs::Marker], the fields that vary. *)
Record Marker := mkMarker { marker_stamp : Time; points : list Point }.

(** [size_t]: the value of an integer converted to [unsigned long]. *)
Definition size_t (n : Z) : Z := n mod 2 ^ 64.

Section Detector.
Context {L : Libm} {T : Listener}.
#[local] Open Scope float_scope.

Definition dist (a b : Point) : float := hypot (x a - x b) (y a - y b).

Definition point_of (p : PointStamped) : Point :=
  mkPoint (point_x p) (point_y p) (point_z p).

(** [groups.back().push_back(p)] *)
Definition push_back_last (p : Point) (groups : list (list Point))
    : list (list Point) :=
  match reverse groups with
  | [] => []
  | g :: rest => reverse ((g ++ [p]) :: rest)
  end.

(** "range segmentation", lines 85-101: the groups when the loop ends or
    [transformPoint] throws. *)
Fixpoint segment (det : detector) (msg : LaserScan) (rs : list float)
    (theta : float) (prev : Point) (groups : list (list Point))
    : list (list Point) :=
  match rs with
  | [] => groups
  | r :: rs' =>
      if Double.ge r (range_min msg) then
        let a := mkPointStamped (scan_frame_id msg) (scan_stamp msg)
                   (r * cos theta) (r * sin theta) 0 in
        match transformPoint "/odom" a with
        | None => groups
        | Some b =>
            let d := dist (point_of b) prev in
            let groups :=
              if Double.gt d (grouping_threshold det)
              then groups ++ [[]] else groups in
            segment det msg rs' (theta + angle_increment msg) (point_of b)
              (push_back_last (point_of b) groups)
        end
      else segment det msg rs' (theta + angle_increment msg) prev groups
  end.

(** The loop over the points of a group, lines 136-149: the inscribed
    angles, their sum and the middle point. *)
Fixpoint inscribed (first last : Point) (size : Z) (ps : list Point) (i : Z)
    (angles : list float) (avg_angle : float) (center : Point)
    : list float * float * Point :=
  match ps with
  | [] => (angles, avg_angle, center)
  | p :: ps' =>
      let '(angles, avg_angle) :=
        if ((0 <? i) && (size_t i <? size_t (size - 1)))%Z then
          let angle := atan2 (y first - y p) (x first - x p)
                       - atan2 (y last - y p) (x last - x p) in
          (angles ++ [angle], avg_angle + angle)
        else (angles, avg_angle) in
      let center := if (size_t i =? size / 2)%Z then p else center in
      inscribed first last size ps' (i + 1)%Z angles avg_angle center
  end.

(** The index of the stored cone nearest to [center], lines 190-199. *)
Definition nearest (cs : list cone_type) (center : Point) : nat :=
  match cs with
  | [] => 0%nat
  | c :: _ =>
      fst (fst (fold_left
                  (fun '(best, d, k) c' =>
                     if Double.lt (dist (snd c') center) d
                     then (k, dist (snd c') center, S k)
                     else (best, d, S k))
                  cs (0%nat, dist (snd c) center, 0%nat)))
  end.

(** Lines 189-205: a stored cone closer than [same_cone_threshold] is
    erased, the detection is appended to [new_cones]. *)
Definition associate (det : detector) (now : Time) (center : Point)
    (cs new_cones : list cone_type) : list cone_type * list cone_type :=
  let cs :=
    match cs !! nearest cs center with
    | Some c =>
        if Double.lt (dist (snd c) center) (same_cone_threshold det)
        then delete (nearest cs center) cs else cs
    | None => cs
    end in
  (cs, new_cones ++ [(now, center)]).

(** The body of the loop over the groups, lines 127-212. *)
Definition detect_circle (det : detector) (now : Time) (group : list Point)
    (cs new_cones : list cone_type) : list cone_type * list cone_type :=
  let size := Z.of_nat (length group) in
  if (size_t (min_circle_size det) <? size)%Z then
    let first := default (mkPoint 0 0 0) (head group) in
    let last := default (mkPoint 0 0 0) (list.last group) in
    let '(angles, avg_angle, center) :=
      inscribed first last size group 0%Z [] 0 (mkPoint 0 0 0) in
    let theta := atan2 (x last - x first) (y last - y first) in
    let x2 := - ((x center - x first) * cos theta
                 - (y center - y first) * sin theta) in
    let circle := true in
    let circle := if Double.gt (0.1 * dist first last) x2 then false else circle in
    let circle := if Double.lt (0.7 * dist first last) x2 then false else circle in
    if circle then
      let n := Double.of_Z (size_t (size - 2)) in
      let avg_angle := avg_angle / n in
      let std_dev :=
        fold_left (fun s a => s + (a - avg_angle) * (a - avg_angle)) angles 0 in
      let std_dev := std_dev / n in
      let std_dev := PrimFloat.sqrt std_dev * 180.0 / Double.M_PI in
      if Double.lt std_dev (std_dev_threshold det) then
        let theta := atan2 (y last - y first) (x last - x first) in
        let d := dist first last in
        let cx := d / 2 in
        let cy := d * tan (avg_angle - Double.M_PI / 2.0) in
        let center :=
          mkPoint (x first + cx * cos theta - cy * sin theta)
                  (y first + cy * cos theta + cx * sin theta)
                  (z center) in
        let r := hypot cx cy in
        if Double.gt r (min_cone_radius det) && Double.lt r (max_cone_radius det)
        then associate det now center cs new_cones
        else (cs, new_cones)
      else (cs, new_cones)
    else (cs, new_cones)
  else (cs, new_cones).

(** Lines 215-220: the stored cones seen less than two seconds ago. *)
Definition retained (now : Time) (cs : list cone_type) : list cone_type :=
  filter (fun p => RosTime.gtb (fst p) (RosTime.sub_sec now 2) = true) cs.

(** [ConeDetector::laserCallback]: the detector after the call and the
    marker it publishes. *)
Definition laserCallback (now : Time) (msg : LaserScan) (det : detector)
    : detector * Marker :=
  let groups :=
    segment det msg (ranges msg) (angle_min msg) (mkPoint 0 0 0) [[]] in
  let '(cs, new_cones) :=
    fold_left (fun '(cs, new_cones) group =>
                 detect_circle det now group cs new_cones)
      groups (cones det, []) in
  let new_cones := new_cones ++ retained now cs in
  (set_cones new_cones det, mkMarker (scan_stamp msg) (map snd new_cones)).

End Detector.
End ConeDetector.

(* ------------------------------------------------------------------ *)
(** * A reference [Libm]

    Series evaluated in binary64, used where an example has to run the
    planner on numbers. [cos 0 = 1], [sin 0 = 0], [atan2 0 x = 0] for
    [x > 0] and [hypot x 0 = |x|] hold exactly, as Annex F of the C standard
    requires; elsewhere the series carry some fifteen digits, and the
    examples leave margins of a tenth and more at every comparison that
    depends on them. *)

Module RefLibm.

#[local] Open Scope float_scope.

(** [acc + Σ term_i] with [term_{i+1} = - term_i * x2 / ((k+1)(k+2))]. *)
Fixpoint alternating (n : nat) (k term acc x2 : float) : float :=
  match n with
  | O => acc
  | S n' =>
      let term' := - term * x2 / ((k + 1) * (k + 2)) in
      alternating n' (k + 2) term' (acc + term') x2
  end.

(** The argument brought into [[-pi, pi]]. *)
Definition reduce (a : float) : float :=
  a - 2 * Double.M_PI * Double.round (a / (2 * Double.M_PI)).

Definition ref_sin (a : float) : float :=
  if Double.eq a 0 then a
  else let r := reduce a in alternating 24 1 r r (r * r).

Definition ref_cos (a : float) : float :=
  let r := reduce a in alternating 24 0 1 1 (r * r).

Definition ref_tan (a : float) : float := ref_sin a / ref_cos a.

(** [atan t = 2 atan (t / (1 + sqrt (1 + t^2)))] *)
Definition halve (t : float) : float := t / (1 + PrimFloat.sqrt (1 + t * t)).

(** [Σ (-1)^i t^(2i+1) / (2i+1)] *)
Fixpoint gregory (n : nat) (k pow acc t2 : float) : float :=
  match n with
  | O => acc
  | S n' =>
      let pow' := - pow * t2 in
      gregory n' (k + 2) pow' (acc + pow' / (k + 2)) t2
  end.

Definition atan_unit (t : float) : float :=
  let s := halve (halve (halve t)) in
  8 * gregory 16 1 s s (s * s).

Definition atan_pos (t : float) : float :=
  if Double.le t 1 then atan_unit t else Double.M_PI / 2 - atan_unit (1 / t).

Definition ref_atan (t : float) : float :=
  if Double.lt t 0 then - atan_pos (- t) else atan_pos t.

Definition ref_atan2 (b a : float) : float :=
  if Double.gt a 0 then
    (if Double.eq b 0 then b else ref_atan (b / a))
  else if Double.lt a 0 then
    (if Double.lt b 0 then ref_atan (b / a) - Double.M_PI
     else ref_atan (b / a) + Double.M_PI)
  else if Double.gt b 0 then Double.M_PI / 2
  else if Double.lt b 0 then - Double.M_PI / 2
  else b.

Definition ref_hypot (a b : float) : float :=
  if Double.eq b 0 then Double.fabs a
  else if Double.eq a 0 then Double.fabs b
  else PrimFloat.sqrt (a * a + b * b).

Definition libm : Libm :=
  {| cos := ref_cos; sin := ref_sin; tan := ref_tan;
     atan2 := ref_atan2; hypot := ref_hypot |}.

End RefLibm.

(* ------------------------------------------------------------------ *)
(** * Notions the statements use *)

(** The points of [ps] up to and including the first one that collides. *)
Fixpoint upto_collision (map_data : gmap Z Z) (ps : list point) : list point :=
  match ps with
  | [] => []
  | p :: ps' =>
      if test_collision map_data p then [p]
      else p :: upto_collision map_data ps'
  end.

(** [clamp(v, lo, hi)], as the specification writes the target speed. *)
Definition clamp (v lo hi : float) : float :=
  if Double.lt v lo then lo else if Double.gt v hi then hi else v.

(** A local map is well formed: its keys are indices of the buffer and its
    values are [-1] (free), [0] (unknown) or [1..4] (obstacle and rings). *)
Definition local_ok (local_map : gmap Z Z) : Prop :=
  forall k v : Z,
    local_map !! k = Some v ->
    0 <= k < LOCAL_MAP_SIZE * LOCAL_MAP_SIZE /\ -1 <= v <= 4.

(** Every cell of the grid holds a value of [0..4]. *)
Definition cells_in_range (g : gmap Z Z) : Prop :=
  forall k : Z, 0 <= map_at g k <= 4.

(** One callback of the planner node. *)
Inductive step `{Libm} `{Tf2} : planner -> planner -> Prop :=
  | step_goal msg st :
      step st (goalCallback msg st)
  | step_position fuel now msg st st' out :
      positionCallback fuel now msg st = Some (st', out) -> step st st'
  | step_laser fuel msg beyond st st' :
      laserCallback fuel msg beyond st = Some st' -> step st st'
  | step_reconfigure c st :
      step st (reconfigureCb c st)
  | step_bump data st :
      step st (bumpCb data st)
  | step_cones ps st :
      step st (conesCb ps st)
  | step_vision now data st :
      step st (visionCb now data st).

(** The states the node reaches from its start. *)
Definition reachable `{Libm} `{Tf2} (st : planner) : Prop :=
  rtc step initial_planner st.

(** A transform service that has no transform to offer. *)
Definition no_tf2 : Tf2 :=
  {| canTransform := fun _ _ _ => false; transform := fun p _ => p |}.

(** A listener whose every [transformPoint] throws. *)
Definition no_listener : ConeDetector.Listener :=
  {| ConeDetector.transformPoint := fun _ _ => None |}.

Section SpecWords.
Context {L : Libm}.
#[local] Open Scope float_scope.

(** The specification's length of a sampled arc:
    [min(traverse_dist, |r|*pi/2)], [traverse_dist] for the straight line. *)
Definition spec_arc_length (traverse_dist r : float) : float :=
  if Double.eq r 0 then traverse_dist
  else Double.min traverse_dist (Double.fabs r * Double.M_PI / 2).

(** The specification's score of a sampled arc: [|arc_end(here, r, l) - goal|]. *)
Definition spec_arc_score (start goal : loc.t) (traverse_dist r : float)
    : float :=
  dist (arc_end start r (spec_arc_length traverse_dist r)) goal.

(** The specification's footprint point: the robot-local [(bx, by)] rotated
    by the yaw, then translated by the position. *)
Definition spec_footprint_point (here : loc.t) (bx by_ : float) : point :=
  (bx * cos (loc.pose here) - by_ * sin (loc.pose here) + loc.x here,
   bx * sin (loc.pose here) + by_ * cos (loc.pose here) + loc.y here).

End SpecWords.

(** The radius [r] is one the fallback loop tries, and [l] is the length it
    tests it at, lines 472-486. *)
Definition fallback_try (st : planner) (traverse_dist r l : float) : Prop :=
  (r = 0%float /\ l = traverse_dist)
  \/ exists i : Z,
       i ∈ [1; 2; 4; 8]
       /\ l = Double.min traverse_dist
                (min_radius st * Double.of_Z i * Double.M_PI / 2)%float
       /\ (r = (min_radius st * Double.of_Z i)%float
           \/ r = (- min_radius st * Double.of_Z i)%float).

Section ArcNotions.
Context {L : Libm}.

(** Every radius collected so far passed the collision test at the length
    it was tried at. *)
Definition all_passed (fuel : nat) (st : planner) (start : loc.t)
    (traverse_dist : float) (arcs : list float) : Prop :=
  forall r, r ∈ arcs ->
    exists l, fallback_try st traverse_dist r l
              /\ test_arc fuel (map_data st) start r l = Some true.

End ArcNotions.

(** A message on [cmd_vel]. *)
Definition is_cmd (o : output) : bool :=
  match o with Cmd _ _ => true | _ => false end.

(** What [plan_path] leaves alone: the parameters, the grid, the goal, the
    stored pose and what the bump, cone and vision callbacks stored. *)
Definition plan_keeps (st st' : planner) : Prop :=
  min_radius st' = min_radius st /\ max_radius st' = max_radius st
  /\ goal_err st' = goal_err st /\ cone_dist st' = cone_dist st
  /\ max_speed st' = max_speed st /\ min_speed st' = min_speed st
  /\ planner_lookahead st' = planner_lookahead st
  /\ max_accel st' = max_accel st /\ backup_time st' = backup_time st
  /\ backup_dist st' = backup_dist st /\ stuck_timeout st' = stuck_timeout st
  /\ cone_timeout st' = cone_timeout st /\ cone_speed st' = cone_speed st
  /\ track_cones st' = track_cones st
  /\ position_frame st' = position_frame st /\ map_data st' = map_data st
  /\ cones st' = cones st /\ cone st' = cone st /\ cone_time st' = cone_time st
  /\ bump st' = bump st /\ goal_msg st' = goal_msg st
  /\ last_loc st' = last_loc st /\ last_pose st' = last_pose st.

Section DetectorNotions.
Context {L : Libm} {T : ConeDetector.Listener}.
Import ConeDetector.
#[local] Open Scope float_scope.

(** The world points of the beams at or above [range_min], in the order of
    the scan, up to the first [transformPoint] that throws. *)
Fixpoint accepted_points (msg : LaserScan) (rs : list float) (theta : float)
    : list Point :=
  match rs with
  | [] => []
  | r :: rs' =>
      if Double.ge r (range_min msg) then
        match transformPoint "/odom"
                (mkPointStamped (scan_frame_id msg) (scan_stamp msg)
                   (r * cos theta) (r * sin theta) 0) with
        | None => []
        | Some b =>
            point_of b :: accepted_points msg rs' (theta + angle_increment msg)
        end
      else accepted_points msg rs' (theta + angle_increment msg)
  end.

(** What the loop over the groups keeps true: the stored cones only shrink,
    and every new cone carries the time of the call. *)
Definition detecting (now : Time) (cones0 : list cone_type)
    (acc : list cone_type * list cone_type) : Prop :=
  (forall c, c ∈ acc.1 -> c ∈ cones0)
  /\ (forall c, c ∈ acc.2 -> fst c = now).

End DetectorNotions.

(* ------------------------------------------------------------------ *)
(** * States and inputs of the examples *)

(** The planner in CONE mode, active, its mode entered and the vision
    reading taken at [t]. *)
Definition cone_tracking (angle : float) (t : Time) : planner :=
  set_cone angle
    (set_cone_time t
       (set_planner_timeout t
          (set_planner_state CONE (set_active true initial_planner)))).

(** The planner in FORWARD mode with an active goal and the default
    parameters, on the grid [g]. *)
Definition driving (g : gmap Z Z) : planner :=
  set_map_data g (set_planner_state FORWARD (set_active true initial_planner)).

(** A detector holding one cone seen at second 9, and a planner whose goal
    is in the frame [map]. *)
Definition one_cone : ConeDetector.detector :=
  ConeDetector.set_cones
    [(mkTime 9 0, ConeDetector.mkPoint 1 1 0)] ConeDetector.initial_detector.

Definition goal_in_map : planner :=
  goalCallback (mkPointStamped "map" (mkTime 0 0) 5 0 0) initial_planner.

(** The grid with an obstacle in the cell of the origin. *)
Definition boxed_in : gmap Z Z := {[ 2500 * 5000 + 2500 := 4 ]}.

(** The grid with one obstacle, on the tangent arc to the goal [(1, -1)]. *)
Definition blocked_tangent : gmap Z Z := {[ 2510 * 5000 + 2491 := 4 ]}.

(** The default parameters with cone tracking switched on. *)
Definition tracking_config : PathPlannerConfig :=
  mkConfig 0.3 6.0 1.5 0.1 4.0 0.3 1.0 2.0 1.0 0.4 true 0.695 4.0.

(** A listener for which the laser frame is the frame [/odom]. *)
Definition identity_listener : ConeDetector.Listener :=
  {| ConeDetector.transformPoint := fun _ p => Some p |}.

(** A goal in the frame [map] given to the driving planner. *)
Definition driving_to_goal : planner :=
  goalCallback (mkPointStamped "map" (mkTime 0 0) 5 0 0) (driving empty_map).

(** The default parameters with [min_speed] raised to [1.2]. *)
Definition hurried_config : PathPlannerConfig :=
  mkConfig 0.3 6.0 1.5 1.2 4.0 0.3 1.0 2.0 1.0 0.4 false 0.695 4.0.

(** A corridor along x: obstacles in the rows next to the row of the
    origin, from [0.1] m to [4] m ahead. *)
Definition corridor : gmap Z Z :=
  foldr (fun i g => <[ (2500 + i) * 5000 + 2501 := 4 ]>
                      (<[ (2500 + i) * 5000 + 2499 := 4 ]> g))
        ∅ (seqZ 1 40).

(* ------------------------------------------------------------------ *)
(** * The order of doubles *)

Module DoubleFacts.

Lemma SFcompare_swap (a b : spec_float) :
  SFcompare b a = option_map CompOpp (SFcompare a b).
Proof.
  destruct a as [sa|sa| |sa ma ea], b as [sb|sb| |sb mb eb]; simpl;
    try reflexivity;
    try (destruct sa; reflexivity); try (destruct sb; reflexivity);
    try (destruct sa, sb; reflexivity).
  destruct sa, sb; simpl; try reflexivity;
    rewrite (Z.compare_antisym ea eb);
    destruct (ea ?= eb)%Z eqn:E; simpl; try reflexivity;
    fold (Pos.compare ma mb); fold (Pos.compare mb ma);
    rewrite (Pos.compare_antisym ma mb);
    destruct (ma ?= mb)%positive; reflexivity.
Qed.

Lemma lt_asym (a b : float) : Double.lt a b = true -> Double.lt b a = false.
Proof.
  unfold Double.lt. rewrite !ltb_spec. unfold SFltb.
  rewrite (SFcompare_swap (Prim2SF a) (Prim2SF b)).
  destruct (SFcompare (Prim2SF a) (Prim2SF b)) as [[]|]; simpl; congruence.
Qed.

Lemma lt_irrefl (a : float) : Double.lt a a = false.
Proof.
  destruct (Double.lt a a) eqn:E; [|reflexivity].
  pose proof (lt_asym a a E). congruence.
Qed.

Lemma le_not_gt (a b : float) : Double.le a b = true -> Double.lt b a = false.
Proof.
  unfold Double.le, Double.lt. rewrite leb_spec, ltb_spec.
  unfold SFleb, SFltb.
  rewrite (SFcompare_swap (Prim2SF a) (Prim2SF b)).
  destruct (SFcompare (Prim2SF a) (Prim2SF b)) as [[]|]; simpl; congruence.
Qed.

Lemma lex_lt (e1 e2 : Z) (m1 m2 : positive) :
  match (e1 ?= e2)%Z with
  | Eq => Pos.compare_cont Eq m1 m2
  | Lt => Lt
  | Gt => Gt
  end = Lt
  <-> (e1 < e2 \/ (e1 = e2 /\ (m1 < m2)%positive))%Z.
Proof.
  fold (Pos.compare m1 m2).
  destruct (Z.compare_spec e1 e2), (Pos.compare_spec m1 m2);
    split; intros; try discriminate; try reflexivity; lia.
Qed.

Lemma lex_gt (e1 e2 : Z) (m1 m2 : positive) :
  match (e1 ?= e2)%Z with
  | Eq => CompOpp (Pos.compare_cont Eq m1 m2)
  | Lt => Gt
  | Gt => Lt
  end = Lt
  <-> (e2 < e1 \/ (e1 = e2 /\ (m2 < m1)%positive))%Z.
Proof.
  fold (Pos.compare m1 m2).
  destruct (Z.compare_spec e1 e2), (Pos.compare_spec m1 m2); simpl;
    split; intros; try discriminate; try reflexivity; lia.
Qed.

Lemma is_Lt_true (c : comparison) :
  match c with Lt => true | _ => false end = true <-> c = Lt.
Proof. destruct c; split; intros; congruence. Qed.

Lemma SFltb_trans (a b c : spec_float) :
  SFltb a b = true -> SFltb b c = true -> SFltb a c = true.
Proof.
  unfold SFltb.
  destruct a as [sa|sa| |sa ma ea], b as [sb|sb| |sb mb eb],
           c as [sc|sc| |sc mc ec]; simpl;
    try discriminate; try reflexivity;
    repeat match goal with s : bool |- _ => destruct s end; simpl;
    try discriminate; try reflexivity;
    rewrite !is_Lt_true, ?lex_lt, ?lex_gt; lia.
Qed.

Lemma lt_trans (a b c : float) :
  Double.lt a b = true -> Double.lt b c = true -> Double.lt a c = true.
Proof. unfold Double.lt. rewrite !ltb_spec. apply SFltb_trans. Qed.

(** [std::min(a, b)] is never above [a]. *)
Lemma min_not_above (a b : float) : Double.gt (Double.min a b) a = false.
Proof.
  unfold Double.gt, Double.min. fold (Double.lt a (if Double.lt b a then b else a)).
  destruct (Double.lt b a) eqn:E; [now apply lt_asym|apply lt_irrefl].
Qed.

End DoubleFacts.

(* ------------------------------------------------------------------ *)
(** * The grid: bounds of [map_get] and [map_set] *)

Lemma in_map_spec (i j : Z) :
  in_map i j = true <-> (0 <= i < MAP_SIZE /\ 0 <= j < MAP_SIZE).
Proof.
  unfold in_map. rewrite !andb_true_iff, !Z.leb_le, !Z.ltb_lt. lia.
Qed.

(** Distinct cells of the grid have distinct row-major indices. *)
Lemma row_major_inj (i j i' j' : Z) :
  0 <= j < MAP_SIZE -> 0 <= j' < MAP_SIZE ->
  i * MAP_SIZE + j = i' * MAP_SIZE + j' -> i = i' /\ j = j'.
Proof. unfold MAP_SIZE. lia. Qed.

Lemma map_at_insert (g : gmap Z Z) (k k' v : Z) :
  map_at (<[ k := v ]> g) k' = if decide (k = k') then v else map_at g k'.
Proof.
  unfold map_at. destruct (decide (k = k')) as [->|Hne].
  - now rewrite lookup_insert_eq.
  - now rewrite lookup_insert_ne.
Qed.

(** C9. A coordinate pair whose cell [(i, j)], [i = round(x/r) + N/2],
    [j = round(y/r) + N/2], is outside the [N x N] grid reads as [0] and a
    write to it leaves the whole grid as it was; a pair inside the grid
    reads and writes the cell of row-major index [i*N + j] and no other. *)
Theorem map_get_set_bounds (map_data : gmap Z Z) (x y : float) (v : Z) :
  let i := cell x in
  let j := cell y in
  (~ (0 <= i < MAP_SIZE /\ 0 <= j < MAP_SIZE) ->
     map_get map_data x y = 0 /\ map_set map_data x y v = map_data)
  /\
  (0 <= i < MAP_SIZE /\ 0 <= j < MAP_SIZE ->
     map_get map_data x y = map_at map_data (i * MAP_SIZE + j) /\
     map_set map_data x y v = <[ i * MAP_SIZE + j := v ]> map_data /\
     map_at (map_set map_data x y v) (i * MAP_SIZE + j) = v /\
     forall k : Z, k <> i * MAP_SIZE + j ->
       map_at (map_set map_data x y v) k = map_at map_data k).
Proof.
  intros i j. unfold map_get, map_set. fold i j. split.
  - intros Hout. destruct (in_map i j) eqn:E; [|done].
    apply in_map_spec in E. contradiction.
  - intros Hin. apply in_map_spec in Hin. rewrite Hin.
    repeat split; [|intros k Hk]; rewrite map_at_insert.
    + now destruct (decide _).
    + destruct (decide _); congruence.
Qed.

(** The bounds at two concrete points: [(249.9, 0)] is the last row of the
    grid, [(250.0, 0)] is outside. *)
Lemma map_get_set_bounds_witness :
  (map_get {[ 24997500 := 3 ]} 249.9 0 = 3 /\
   map_at (map_set empty_map 249.9 0 2) 24997500 = 2) /\
  (map_get {[ 24997500 := 3 ]} 250.0 0 = 0 /\
   map_set {[ 24997500 := 3 ]} 250.0 0 2 = {[ 24997500 := 3 ]}).
Proof.
  split.
  - pose proof (map_get_set_bounds {[ 24997500 := 3 ]} 249.9 0 2) as [_ Hin].
    pose proof (map_get_set_bounds empty_map 249.9 0 2) as [_ Hin'].
    split.
    + rewrite (proj1 (Hin ltac:(vm_compute; intuition discriminate))).
      reflexivity.
    + exact (proj1 (proj2 (proj2 (Hin' ltac:(vm_compute; intuition discriminate))))).
  - pose proof (map_get_set_bounds {[ 24997500 := 3 ]} 250.0 0 2) as [Hout _].
    apply Hout. vm_compute. intros [[_ H] _]. discriminate H.
Defined.

(* ------------------------------------------------------------------ *)
(** * Arcs: the collision test walks the published path *)

Section ArcFacts.
Context {L : Libm}.

Lemma test_arc_loop_follows (fuel : nat) (map_data : gmap Z Z)
    (h : float -> point) (l d : float) :
  test_arc_loop fuel map_data h l d =
    (upto_collision map_data (arcToPath_loop fuel h l d).1,
     if existsb (test_collision map_data) (arcToPath_loop fuel h l d).1
     then Some false
     else if (arcToPath_loop fuel h l d).2 then Some true else None).
Proof.
  revert d. induction fuel as [|n IH]; intros d; simpl; [done|].
  destruct (Double.lt d l); [|done].
  specialize (IH (d + HALF_RES)%float).
  destruct (arcToPath_loop n h l (d + HALF_RES)%float) as [poses ended].
  simpl in *. destruct (test_collision map_data (h d)); [done|].
  now rewrite IH.
Qed.

(** C3. For every start pose, radius, length and grid: when [arcToPath]
    returns the path it publishes, the points [test_arc] hands to the
    collision test are the poses of that path, in the same order and at the
    same spacing, up to and including the first one that collides, and
    [test_arc] returns [false] exactly when one of the poses collides; and
    as long as the loop of [arcToPath] has not ended, [test_arc] has not
    returned [true]. *)
Theorem test_arc_walks_arcToPath (fuel : nat) (map_data : gmap Z Z)
    (start : loc.t) (r l : float) :
  match arcToPath fuel start r l with
  | Some poses =>
      test_arc_points fuel map_data start r l = upto_collision map_data poses
      /\ test_arc fuel map_data start r l
         = Some (negb (existsb (test_collision map_data) poses))
  | None => test_arc fuel map_data start r l <> Some true
  end.
Proof.
  unfold arcToPath, test_arc, test_arc_points, test_arc_run, arcToPath_run.
  destruct (Double.ne r 0); rewrite test_arc_loop_follows;
    (destruct (arcToPath_loop _ _ _ _) as [ps ended]; simpl;
     destruct ended, (existsb (test_collision map_data) ps);
     try (split; reflexivity); discriminate).
Qed.

(** A path that is free of obstacles is the whole of what [test_arc] saw. *)
Lemma upto_collision_free (map_data : gmap Z Z) (ps : list point) :
  existsb (test_collision map_data) ps = false ->
  upto_collision map_data ps = ps.
Proof.
  induction ps as [|p ps IH]; simpl; [done|].
  destruct (test_collision map_data p); simpl; [done|].
  intros E. now rewrite IH.
Qed.

(** When [arcToPath] returns a path, [test_arc] returns too, with the same
    fuel, and says whether the path is free. *)
Lemma test_arc_of_arcToPath (fuel : nat) (map_data : gmap Z Z)
    (start : loc.t) (r l : float) (poses : list point) :
  arcToPath fuel start r l = Some poses ->
  test_arc fuel map_data start r l
  = Some (negb (existsb (test_collision map_data) poses)).
Proof.
  unfold arcToPath, test_arc, test_arc_run, arcToPath_run.
  destruct (Double.ne r 0); rewrite test_arc_loop_follows;
    (destruct (arcToPath_loop _ _ _ _) as [ps ended]; simpl;
     destruct ended; [|done]; intros [= ->]; now destruct (existsb _ _)).
Qed.

(** When [test_arc] returns [true], [arcToPath] returns the path it walked. *)
Lemma arcToPath_of_test_arc (fuel : nat) (map_data : gmap Z Z)
    (start : loc.t) (r l : float) :
  test_arc fuel map_data start r l = Some true ->
  exists poses : list point,
    arcToPath fuel start r l = Some poses
    /\ existsb (test_collision map_data) poses = false.
Proof.
  unfold arcToPath, test_arc, test_arc_run, arcToPath_run.
  destruct (Double.ne r 0); rewrite test_arc_loop_follows;
    (destruct (arcToPath_loop _ _ _ _) as [ps ended]; simpl;
     destruct (existsb _ ps) eqn:E; [discriminate|];
     destruct ended; [|discriminate]; intros _; now exists ps).
Qed.

(** The loop ends within [fuel] iterations when one of the first [fuel]
    values of [dist] is not below [l]. *)
Lemma arcToPath_loop_ends (h : float -> point) (l : float) (fuel k : nat)
    (d : float) :
  (k < fuel)%nat ->
  Double.lt (Nat.iter k (fun v => (v + HALF_RES)%float) d) l = false ->
  (arcToPath_loop fuel h l d).2 = true.
Proof.
  revert k d. induction fuel as [|n IH]; intros k d Hk Hstop; [lia|].
  simpl. destruct (Double.lt d l) eqn:E; [|done].
  destruct k as [|k]; [simpl in Hstop; congruence|].
  rewrite Nat.iter_succ_r in Hstop.
  specialize (IH k (d + HALF_RES)%float ltac:(lia) Hstop).
  now destruct (arcToPath_loop n h l (d + HALF_RES)%float).
Qed.

(** X1. With a length that is not above 4 m, the default look-ahead, 82
    iterations end both loops: [arcToPath] and [test_arc] return. *)
Theorem arc_loops_end (map_data : gmap Z Z) (start : loc.t) (r l : float) :
  Double.gt l 4.0 = false ->
  is_Some (arcToPath 82 start r l) /\ is_Some (test_arc 82 map_data start r l).
Proof.
  intros Hl.
  assert (forall h, (arcToPath_loop 82 h l 0).2 = true) as Hend.
  { intros h. apply (arcToPath_loop_ends h l 82 81 0); [lia|].
    destruct (Double.lt _ l) eqn:E; [|done].
    assert (Double.lt 4.0 (Nat.iter 81 (fun v => (v + HALF_RES)%float) 0%float)
            = true) as Hpast by (vm_compute; reflexivity).
    pose proof (DoubleFacts.lt_trans _ _ _ Hpast E) as Hlt.
    unfold Double.gt in Hl. unfold Double.lt in Hlt. congruence. }
  unfold arcToPath, test_arc, test_arc_run, arcToPath_run.
  destruct (Double.ne r 0); rewrite test_arc_loop_follows;
    (match goal with
     | |- context [arcToPath_loop 82 ?h l 0%float] =>
         specialize (Hend h); destruct (arcToPath_loop 82 h l 0%float) as [ps ended]
     end; simpl in *; subst ended; split; [done|];
     now destruct (existsb _ ps)).
Qed.

End ArcFacts.

(** The quarter turn to the right of radius 1 from the origin, on the grid
    with one obstacle on it: [arcToPath] returns the whole path, and the
    walk of [test_arc] is that path cut at the pose that collides. *)
Lemma test_arc_walks_arcToPath_witness :
  exists poses : list point,
    arcToPath (L := RefLibm.libm) 100 loc.zero (-1) 1.5707963267948966
    = Some poses
    /\ test_arc_points (L := RefLibm.libm) 100 blocked_tangent loc.zero (-1)
         1.5707963267948966
       = upto_collision blocked_tangent poses
    /\ test_arc (L := RefLibm.libm) 100 blocked_tangent loc.zero (-1)
         1.5707963267948966
       = Some false
    /\ (length (upto_collision blocked_tangent poses) <? length poses)%nat
       = true.
Proof.
  pose proof (test_arc_walks_arcToPath (L := RefLibm.libm) 100 blocked_tangent
                loc.zero (-1) 1.5707963267948966) as Hwalk.
  destruct (arcToPath (L := RefLibm.libm) 100 loc.zero (-1)
              1.5707963267948966) as [poses|] eqn:Hpath;
    [|vm_compute in Hpath; discriminate].
  destruct Hwalk as [Hpoints Hresult].
  exists poses. split; [reflexivity|]. split; [exact Hpoints|].
  vm_compute in Hpath. apply (inj Some) in Hpath. subst poses.
  split; [rewrite Hresult|]; vm_compute; reflexivity.
Defined.

(** A quarter turn of radius 1 on the empty grid. *)
Lemma arc_loops_end_witness :
  is_Some (arcToPath (L := RefLibm.libm) 82 loc.zero 1 1.5)
  /\ is_Some (test_arc (L := RefLibm.libm) 82 empty_map loc.zero 1 1.5).
Proof. apply (arc_loops_end (L := RefLibm.libm)). reflexivity. Defined.

(* ------------------------------------------------------------------ *)
(** * The grid: every cell stays in [0..4] *)

Lemma merge_value_range (local global : Z) :
  0 <= merge_value local global <= 4.
Proof.
  unfold merge_value.
  repeat match goal with
         | |- context [if ?c then _ else _] => destruct c eqn:?
         end; lia.
Qed.

Lemma map_set_in_range (g : gmap Z Z) (x y : float) (v : Z) :
  cells_in_range g -> 0 <= v <= 4 -> cells_in_range (map_set g x y v).
Proof.
  intros Hg Hv k. unfold map_set.
  destruct (in_map _ _); [|apply Hg].
  rewrite map_at_insert. destruct (decide _); [lia|apply Hg].
Qed.

Lemma fold_left_invariant {A B : Type} (P : A -> Prop) (f : A -> B -> A)
    (l : list B) (a : A) :
  (forall a b, P a -> P (f a b)) -> P a -> P (fold_left f l a).
Proof.
  intros Hf. revert a. induction l as [|b l IH]; simpl; auto.
Qed.

Section GridInvariant.
Context {L : Libm}.

Lemma merge_local_in_range (local_map : gmap Z Z) (here : loc.t)
    (g : gmap Z Z) :
  cells_in_range g -> cells_in_range (merge_local local_map here g).
Proof.
  intros Hg. unfold merge_local.
  apply fold_left_invariant; [|exact Hg]. intros g1 i Hg1.
  apply fold_left_invariant; [|exact Hg1]. intros g2 j Hg2.
  apply map_set_in_range; [exact Hg2|apply merge_value_range].
Qed.

Lemma clear_footprint_in_range (here : loc.t) (g : gmap Z Z) :
  cells_in_range g -> cells_in_range (clear_footprint here g).
Proof.
  intros Hg. unfold clear_footprint.
  apply fold_left_invariant; [|exact Hg]. intros g1 bx Hg1.
  apply fold_left_invariant; [|exact Hg1]. intros g2 by_ Hg2.
  apply map_set_in_range; [exact Hg2|lia].
Qed.

Lemma plan_path_map_data (fuel : nat) (now : Time) (st st' : planner)
    (start goal : loc.t) (p : path) (out : list output) :
  plan_path fuel now st start goal = Some (p, st', out) ->
  map_data st' = map_data st.
Proof.
  unfold plan_path, plan_forward, plan_backing, plan_cone. intros H.
  repeat (case_match; simplify_option_eq); reflexivity.
Qed.

End GridInvariant.

Lemma step_in_range `{Libm} `{Tf2} (st st' : planner) :
  step st st' -> cells_in_range (map_data st) -> cells_in_range (map_data st').
Proof.
  intros Hstep Hst. destruct Hstep as
    [msg st|fuel now msg st st' out Hpos|fuel msg beyond st st' Hscan|c st
    |data st|ps st|now data st]; try exact Hst.
  - unfold positionCallback in Hpos.
    destruct (goal_in_frame _ _) as [st1|] eqn:Hg.
    + assert (map_data st1 = map_data st) as Hst1.
      { unfold goal_in_frame in Hg.
        repeat (case_match; simplify_option_eq); reflexivity. }
      destruct (active st1).
      * destruct (plan_path _ _ _ _ _) as [[[p st2] out2]|] eqn:Hp;
          simplify_option_eq.
        apply plan_path_map_data in Hp. now rewrite Hp, Hst1.
      * simplify_option_eq. now rewrite Hst1.
    + simplify_option_eq. exact Hst.
  - unfold laserCallback in Hscan.
    destruct (build_local_map _ _ _ _) as [local_map|]; simplify_option_eq.
    now apply clear_footprint_in_range, merge_local_in_range.
Qed.

(** C1. Every value the merge step computes for a cell is in [0..4] (the
    footprint step writes the constant [0]), and in every state the node
    reaches from the all-zero grid, through any sequence of callbacks and
    whatever the scans hold, every cell of the grid is in [0..4]. *)
Theorem grid_cells_in_range {L : Libm} {T : Tf2} :
  (forall local global : Z, 0 <= merge_value local global <= 4) /\
  (forall st : planner, reachable st -> cells_in_range (map_data st)).
Proof.
  split; [apply merge_value_range|].
  intros st Hreach. unfold reachable in Hreach.
  assert (cells_in_range (map_data initial_planner)) as Hinit.
  { intros k. unfold map_at. simpl. unfold empty_map.
    rewrite lookup_empty. simpl. lia. }
  revert st Hreach.
  apply (rtc_ind_r (R := step) (fun st => cells_in_range (map_data st)));
    [exact Hinit|].
  intros st1 st2 _ Hstep IH. eapply step_in_range; eauto.
Qed.

(** A wall one metre ahead, seen by three beams. *)
Definition wall_ahead : LaserScan :=
  mkLaserScan "laser" (mkTime 10 0) (-0.05) 0.05 0.1 [1.0; 1.0; 1.0]%float.

(** Two scans of a wall one metre ahead: both callbacks return and the grid
    is in range. *)
Lemma grid_cells_in_range_witness :
  exists st1 st2 : planner,
    laserCallback (L := RefLibm.libm) 100 wall_ahead (fun _ => 0)
      initial_planner = Some st1
    /\ laserCallback (L := RefLibm.libm) 100 wall_ahead (fun _ => 0) st1
       = Some st2
    /\ cells_in_range (map_data st2).
Proof.
  assert (is_Some (build_local_map (L := RefLibm.libm) 100 wall_ahead
                     (fun _ => 0) loc.zero)) as [local_map Hlocal]
    by (apply is_Some_alt; vm_compute; exact I).
  assert (forall st, last_loc st = loc.zero ->
            laserCallback (L := RefLibm.libm) 100 wall_ahead (fun _ => 0) st
            = Some (set_map_data
                      (clear_footprint (L := RefLibm.libm) loc.zero
                         (merge_local local_map loc.zero (map_data st))) st))
    as Hscan.
  { intros st Hst. unfold laserCallback. rewrite Hst, Hlocal. reflexivity. }
  pose proof (Hscan initial_planner eq_refl) as H1.
  pose proof (Hscan
                (set_map_data
                   (clear_footprint (L := RefLibm.libm) loc.zero
                      (merge_local local_map loc.zero
                         (map_data initial_planner))) initial_planner)
                eq_refl) as H2.
  eexists _, _. split; [exact H1|]. split; [exact H2|].
  apply (proj2 (grid_cells_in_range (L := RefLibm.libm) (T := no_tf2))).
  eapply rtc_l; [eapply step_laser; exact H1|].
  apply rtc_once. eapply step_laser; exact H2.
Defined.

(* ------------------------------------------------------------------ *)
(** * BACKING *)

Section Backing.
Context {L : Libm}.
#[local] Open Scope float_scope.

Lemma plan_path_backing (fuel : nat) (now : Time) (st : planner)
    (start goal : loc.t) :
  planner_state st = BACKING ->
  plan_path fuel now st start goal = Some (plan_backing now st start).
Proof.
  intros Hst. unfold plan_path. rewrite Hst.
  rewrite bool_decide_eq_false_2 by discriminate.
  rewrite andb_false_r. now rewrite Hst.
Qed.

(** C7, as the code has it. In BACKING the planner returns
    [(speed = -2*min_speed, radius = backup_radius)] on every call and
    publishes nothing; it goes back to FORWARD, with the seconds of
    [planner_timeout] cleared, exactly when
    [now - planner_timeout > backup_time] or
    [|here - backup_pose| > backup_dist] (strict comparisons), and changes
    no global otherwise. *)
Theorem backing_emits_and_exits (fuel : nat) (now : Time) (st : planner)
    (start goal : loc.t) :
  planner_state st = BACKING ->
  exists st' : planner,
    plan_path fuel now st start goal
    = Some (mkPath (-2.0 * min_speed st) (backup_radius st), st', [])
    /\ (planner_state st' = FORWARD <->
          Double.gt (RosTime.diff_sec now (planner_timeout st)) (backup_time st)
          = true
          \/ Double.gt (dist start (backup_pose st)) (backup_dist st) = true)
    /\ (planner_state st' = FORWARD -> sec (planner_timeout st') = 0%Z)
    /\ (planner_state st' <> FORWARD -> st' = st).
Proof.
  intros Hst. rewrite (plan_path_backing _ _ _ _ _ Hst).
  unfold plan_backing.
  destruct (Double.gt (RosTime.diff_sec now (planner_timeout st)) (backup_time st))
    eqn:Etime; simpl backup_pose; simpl backup_dist.
  - destruct (Double.gt (dist start (backup_pose st)) (backup_dist st));
      eexists; (split; [reflexivity|]); simpl; intuition congruence.
  - destruct (Double.gt (dist start (backup_pose st)) (backup_dist st)) eqn:Edist;
      eexists; (split; [reflexivity|]); simpl; rewrite ?Hst;
      intuition congruence.
Qed.

End Backing.

(** Five seconds into a back-up, at the anchor: the planner keeps backing. *)
Lemma backing_emits_and_exits_witness :
  exists st' : planner,
    plan_path (L := RefLibm.libm) 0 (mkTime 5 0) initial_planner
      loc.zero loc.zero
    = Some (mkPath (-2.0 * min_speed initial_planner)%float
              (backup_radius initial_planner), st', [])
    /\ (planner_state st' = FORWARD <->
          Double.gt (RosTime.diff_sec (mkTime 5 0)
                       (planner_timeout initial_planner))
            (backup_time initial_planner) = true
          \/ Double.gt (dist (L := RefLibm.libm) loc.zero
                          (backup_pose initial_planner))
               (backup_dist initial_planner) = true)
    /\ (planner_state st' = FORWARD -> sec (planner_timeout st') = 0%Z)
    /\ (planner_state st' <> FORWARD -> st' = initial_planner).
Proof.
  apply (backing_emits_and_exits (L := RefLibm.libm)). reflexivity.
Defined.

(** C7 as stated fails at equality: ten seconds after the back-up started,
    with [backup_time = 10] and the robot still at the anchor,
    [now - planner_timeout >= backup_time] holds and the planner stays in
    BACKING. *)
Lemma backing_stays_at_backup_time :
  let st := set_planner_timeout (mkTime 100 0) initial_planner in
  let now := mkTime 110 0 in
  planner_state st = BACKING
  /\ Double.ge (RosTime.diff_sec now (planner_timeout st)) (backup_time st)
     = true
  /\ exists (p : path) (st' : planner),
       plan_path (L := RefLibm.libm) 0 now st loc.zero loc.zero
       = Some (p, st', [])
       /\ planner_state st' = BACKING.
Proof.
  split; [reflexivity|]. split; [reflexivity|].
  eexists _, _. split; [vm_compute; reflexivity|reflexivity].
Qed.

(* ------------------------------------------------------------------ *)
(** * CONE *)

Section ConeMode.
Context {L : Libm} {T : Tf2}.
#[local] Open Scope float_scope.

(** A quotient by zero is an infinity or a NaN, never zero. *)
Lemma div_zero_ne_zero (a : float) : Double.ne (a / 0) 0 = true.
Proof.
  unfold Double.ne. rewrite FloatAxioms.eqb_spec, div_spec.
  replace (Prim2SF 0) with (S754_zero false) by reflexivity.
  destruct (Prim2SF a) as [s|s| |s m e]; try destruct s; reflexivity.
Qed.

Lemma plan_path_cone (fuel : nat) (now : Time) (st : planner)
    (start goal : loc.t) :
  planner_state st = CONE ->
  plan_path fuel now st start goal = Some (plan_cone now st start).
Proof.
  intros Hst. unfold plan_path. rewrite Hst.
  rewrite bool_decide_eq_false_2 by discriminate.
  rewrite andb_false_r. now rewrite Hst.
Qed.

(** C10. In CONE mode, with a vision reading younger than [cone_timeout],
    no bump and no time-out of the mode, the planner returns
    [radius = cone_speed / (cone * 1.4)] for every reading [cone], and
    [positionCallback] publishes [angular.z] from it. For a reading of
    exactly [0] the divisor is [0], the radius is [cone_speed / 0], the test
    [radius != 0.0] lets it through and [angular.z] is
    [speed / (cone_speed / 0)]. *)
Theorem cone_radius_unguarded (fuel : nat) (now : Time) (msg : Odometry)
    (st : planner) :
  planner_state st = CONE ->
  active st = true ->
  bump st = false ->
  odom_frame_id msg = frame_id (goal_msg st) ->
  RosTime.ltb (RosTime.add_sec (planner_timeout st) 60) now = false ->
  Double.lt (RosTime.diff_sec now (cone_time st)) (cone_timeout st) = true ->
  let here := loc.mk (odom_x msg) (odom_y msg) (odom_yaw msg) in
  let st' := set_position_frame (odom_frame_id msg)
               (set_last_pose here (set_last_loc here st)) in
  let radius := cone_speed st / (cone st * 1.4) in
  let speed := limit_accel st (cone_speed st) (odom_linear_x msg) in
  plan_path fuel now st' here (loc_of_point (goal_msg st))
  = Some (mkPath (cone_speed st) radius, st', [])
  /\ positionCallback fuel now msg st
     = Some (st', [Cmd speed (angular_z speed radius)])
  /\ (cone st = 0 ->
      cone st * 1.4 = 0
      /\ radius = cone_speed st / 0
      /\ angular_z speed radius = speed / (cone_speed st / 0)).
Proof.
  intros Hst Hact Hbump Hframe Hlive Hfresh here st' radius speed.
  assert (plan_path fuel now st' here (loc_of_point (goal_msg st))
          = Some (mkPath (cone_speed st) radius, st', [])) as Hplan.
  { rewrite plan_path_cone by exact Hst.
    unfold plan_cone. simpl cone_time. simpl cone_timeout. rewrite Hfresh.
    simpl bump. rewrite Hbump. simpl planner_timeout. rewrite Hlive.
    reflexivity. }
  split; [exact Hplan|]. split.
  - unfold positionCallback. fold here. fold st'.
    unfold goal_in_frame. simpl goal_msg.
    rewrite bool_decide_eq_false_2 by (intros Hne; now apply Hne).
    simpl active. rewrite Hact. simpl goal_msg. rewrite Hplan.
    reflexivity.
  - intros Hzero. unfold radius. rewrite Hzero.
    replace (0 * 1.4) with 0 by reflexivity.
    repeat split. unfold angular_z. now rewrite div_zero_ne_zero.
Qed.

End ConeMode.

(** A reading of [0] taken half a second ago, the robot at rest: the radius
    is infinite and the command is [(max_accel, 0)]. *)
Lemma cone_radius_unguarded_witness :
  let st := cone_tracking 0 (mkTime 100 0) in
  let msg := mkOdometry "" 0 0 0 0 in
  exists st' : planner,
    plan_path (L := RefLibm.libm) 0 (mkTime 100 500000000) st' loc.zero
      (loc_of_point (goal_msg st))
    = Some (mkPath 0.4 infinity, st', [])
    /\ positionCallback (L := RefLibm.libm) (T := no_tf2) 0
         (mkTime 100 500000000) msg st
       = Some (st', [Cmd 0.3 0]).
Proof.
  intros st msg.
  pose proof (cone_radius_unguarded (L := RefLibm.libm) (T := no_tf2) 0
                (mkTime 100 500000000) msg st
                eq_refl eq_refl eq_refl eq_refl eq_refl eq_refl) as [Hp [Hc _]].
  eexists. split; [exact Hp|exact Hc].
Defined.

(* ------------------------------------------------------------------ *)
(** * FORWARD: the target speed *)

Section ForwardSpeed.
Context {L : Libm}.
#[local] Open Scope float_scope.

Lemma at_least_min_speed_floor (st : planner) (v : float) :
  Double.lt (at_least_min_speed st v) (min_speed st) = false.
Proof.
  unfold at_least_min_speed.
  destruct (Double.lt v (min_speed st)) eqn:E; [apply DoubleFacts.lt_irrefl|exact E].
Qed.

Lemma target_speed_ceiling (st : planner) (len : float) :
  Double.gt (target_speed st len) (max_speed st) = false.
Proof. apply DoubleFacts.min_not_above. Qed.

Lemma plan_path_forward (fuel : nat) (now : Time) (st : planner)
    (start goal : loc.t) :
  planner_state st = FORWARD ->
  track_cones st && Double.lt (dist start goal) (cone_dist st) = false ->
  plan_path fuel now st start goal
  = plan_forward fuel now st start goal (dist start goal).
Proof.
  intros Hst Hcone. unfold plan_path. rewrite Hcone. simpl. now rewrite Hst.
Qed.

(** C8, as the code has it. In FORWARD mode, away from the goal and outside
    cone tracking:
    - when the tangent arc passes the collision test, the speed is
      [min(max_speed, max_speed*2*traverse_dist/planner_lookahead)] raised
      to [min_speed], with [traverse_dist = min(d, planner_lookahead)] the
      distance to the goal and not the length of the arc; the path of the
      arc is published; the speed is never below [min_speed], and never
      above [max_speed] when [min_speed <= max_speed];
    - when a sampled arc is chosen instead, the speed is never above
      [max_speed], and wherever
      [min(max_speed, max_speed*2*arc_len/planner_lookahead)] is not below
      [min_speed] the speed is that value raised to [min_speed], with
      [arc_len] the quarter turn [|best_r*pi/2|] of the chosen radius
      ([traverse_dist] for the straight line). Nothing is said of the speed
      of a sampled arc whose value is below [min_speed].
    In both cases the planner returns, once its loops end. *)
Theorem forward_speed (fuel : nat) (now : Time) (st : planner)
    (start goal : loc.t) (alpha radius arc_len : float) :
  planner_state st = FORWARD ->
  track_cones st && Double.lt (dist start goal) (cone_dist st) = false ->
  Double.lt (dist start goal) (goal_err st) = false ->
  let d := dist start goal in
  let theta := atan2 (loc.y goal - loc.y start) (loc.x goal - loc.x start) in
  let traverse_dist := Double.min d (planner_lookahead st) in
  tangent_arc fuel st d theta start = Some (alpha, radius, arc_len) ->
  (test_arc fuel (map_data st) start radius arc_len = Some true ->
   let speed := at_least_min_speed st (target_speed st traverse_dist) in
   exists poses : list point,
     arcToPath fuel start radius arc_len = Some poses
     /\ plan_path fuel now st start goal
        = Some (mkPath speed radius, clear_timeout st,
                [PathMsg (position_frame st) poses])
     /\ Double.lt speed (min_speed st) = false
     /\ (Double.le (min_speed st) (max_speed st) = true ->
         Double.gt speed (max_speed st) = false))
  /\
  (forall (first : float) (rest : list float) (poses : list point),
     test_arc fuel (map_data st) start radius arc_len = Some false ->
     candidate_arcs fuel st start traverse_dist = Some (first :: rest) ->
     let best_r := choose_arc start goal traverse_dist first (first :: rest) in
     let best_len := if Double.eq best_r 0 then traverse_dist
                     else Double.fabs (best_r * Double.M_PI / 2) in
     arcToPath fuel start best_r (Double.min traverse_dist best_len)
     = Some poses ->
     exists speed : float,
       plan_path fuel now st start goal
       = Some (mkPath speed best_r, clear_timeout st,
               [PathMsg (position_frame st) poses])
       /\ Double.gt speed (max_speed st) = false
       /\ (Double.lt (target_speed st best_len) (min_speed st) = false ->
           speed = at_least_min_speed st (target_speed st best_len))).
Proof.
  intros Hst Hcone Hfar d theta traverse_dist Htan.
  rewrite (plan_path_forward _ _ _ _ _ Hst Hcone).
  unfold plan_forward. rewrite Hfar.
  subst d theta traverse_dist. rewrite Htan. split.
  - intros Hok.
    destruct (arcToPath_of_test_arc _ _ _ _ _ Hok) as [poses [Hposes _]].
    exists poses. split; [exact Hposes|].
    simpl. rewrite Hok. simpl. rewrite Hposes. simpl.
    split; [reflexivity|]. split; [apply at_least_min_speed_floor|].
    intros Hle. unfold at_least_min_speed.
    destruct (Double.lt (target_speed st _) (min_speed st)).
    + now apply DoubleFacts.le_not_gt.
    + apply target_speed_ceiling.
  - intros first rest poses Hbad Harcs Hposes.
    simpl. rewrite Hbad. simpl. rewrite Harcs. simpl.
    rewrite Hposes. simpl.
    eexists. split; [reflexivity|]. split; [apply target_speed_ceiling|].
    intros Hfloor. unfold at_least_min_speed. now rewrite Hfloor.
Qed.

(** X2. At the goal. In FORWARD mode, outside cone tracking, closer to the
    goal than [goal_err]: the planner returns [(0, 0)] and clears [active]; it
    publishes [goal_reached = true] and restarts [done_time] only when more
    than half a second has passed since [done_time]. *)
Theorem goal_reached_stops (fuel : nat) (now : Time) (st : planner)
    (start goal : loc.t) :
  planner_state st = FORWARD ->
  track_cones st && Double.lt (dist start goal) (cone_dist st) = false ->
  Double.lt (dist start goal) (goal_err st) = true ->
  plan_path fuel now st start goal
  = Some (if Double.gt (RosTime.diff_sec now (done_time st)) 0.5
          then (mkPath 0 0, set_done_time now (set_active false st),
                [Done true])
          else (mkPath 0 0, set_active false st, [])).
Proof.
  intros Hst Hcone Hnear.
  rewrite (plan_path_forward _ _ _ _ _ Hst Hcone).
  unfold plan_forward. rewrite Hnear. simpl done_time.
  now destruct (Double.gt _ 0.5).
Qed.

(** X3. Stuck. In FORWARD mode, away from the goal, when the tangent arc
    and every sampled arc fail the collision test, the planner returns [(0, 0)]
    and publishes nothing; it starts the stuck timer if it is not running,
    and once the timer has run for more than [stuck_timeout] it switches to
    BACKING, anchored at the current pose, turning away from the goal
    ([-min_radius] when [alpha > 0], [min_radius] otherwise), and restarts
    the timer. *)
Theorem stuck_backs_up (fuel : nat) (now : Time) (st : planner)
    (start goal : loc.t) (alpha radius arc_len : float) :
  planner_state st = FORWARD ->
  track_cones st && Double.lt (dist start goal) (cone_dist st) = false ->
  Double.lt (dist start goal) (goal_err st) = false ->
  tangent_arc fuel st (dist start goal)
    (atan2 (loc.y goal - loc.y start) (loc.x goal - loc.x start)) start
  = Some (alpha, radius, arc_len) ->
  test_arc fuel (map_data st) start radius arc_len = Some false ->
  candidate_arcs fuel st start
    (Double.min (dist start goal) (planner_lookahead st)) = Some [] ->
  plan_path fuel now st start goal
  = Some (mkPath 0 0,
          (if (sec (planner_timeout st) =? 0)%Z then set_planner_timeout now st
           else if Double.gt (RosTime.diff_sec now (planner_timeout st))
                     (stuck_timeout st)
           then set_planner_timeout now
                  (set_backup_pose start
                     (set_backup_radius
                        (if Double.gt alpha 0 then - min_radius st
                         else min_radius st)
                        (set_planner_state BACKING st)))
           else st),
          []).
Proof.
  intros Hst Hcone Hfar Htan Hbad Harcs.
  rewrite (plan_path_forward _ _ _ _ _ Hst Hcone).
  unfold plan_forward. rewrite Hfar, Htan. simpl.
  rewrite Hbad. simpl. rewrite Harcs. simpl.
  now destruct (sec (planner_timeout st) =? 0)%Z.
Qed.

End ForwardSpeed.

(** The goal under the robot, a second after the last report. *)
Lemma goal_reached_stops_witness :
  plan_path (L := RefLibm.libm) 0 (mkTime 1 0) (driving empty_map)
    loc.zero loc.zero
  = Some (mkPath 0 0,
          set_done_time (mkTime 1 0) (set_active false (driving empty_map)),
          [Done true]).
Proof.
  apply (goal_reached_stops (L := RefLibm.libm) 0 (mkTime 1 0)
           (driving empty_map) loc.zero loc.zero); reflexivity.
Defined.

(** An obstacle in the robot's own cell blocks every arc at its first
    sample: the planner stops and starts the stuck timer. *)
Lemma stuck_backs_up_witness :
  plan_path (L := RefLibm.libm) 100 (mkTime 50 0) (driving boxed_in)
    loc.zero (loc.mk 1 1 0)
  = Some (mkPath 0 0, set_planner_timeout (mkTime 50 0) (driving boxed_in), []).
Proof.
  apply (stuck_backs_up (L := RefLibm.libm) 100 (mkTime 50 0)
           (driving boxed_in) loc.zero (loc.mk 1 1 0)
           1.5707963267948966 0.99999999999999978 1.5707963267948961);
    vm_compute; reflexivity.
Defined.

(** Two runs from the origin, heading along x. On the empty grid, to the
    goal [(1, 1)]: the tangent arc (radius 1, a quarter turn) is free and
    the planner returns at the speed the distance to the goal gives. With
    the tangent arc to the goal [(1, -1)] blocked: the left turn of radius
    [8*min_radius] is chosen and the planner returns at [max_speed], the
    value its quarter turn gives. *)
Lemma forward_speed_witness :
  (let st := driving empty_map in
   let goal := loc.mk 1 1 0 in
   let traverse_dist :=
     Double.min (dist (L := RefLibm.libm) loc.zero goal) (planner_lookahead st) in
   let speed := at_least_min_speed st (target_speed st traverse_dist) in
   exists (radius : float) (poses : list point),
     plan_path (L := RefLibm.libm) 100 (mkTime 100 0) st loc.zero goal
     = Some (mkPath speed radius, clear_timeout st,
             [PathMsg (position_frame st) poses])
     /\ Double.lt speed (min_speed st) = false)
  /\
  (let st := driving blocked_tangent in
   let goal := loc.mk 1 (-1) 0 in
   exists (speed best_r : float) (poses : list point),
     plan_path (L := RefLibm.libm) 100 (mkTime 100 0) st loc.zero goal
     = Some (mkPath speed best_r, clear_timeout st,
             [PathMsg (position_frame st) poses])
     /\ best_r = (0.695 * 8)%float
     /\ Double.gt speed (max_speed st) = false
     /\ speed = at_least_min_speed st
                  (target_speed st (Double.fabs (best_r * Double.M_PI / 2)))).
Proof.
  split.
  - intros st goal traverse_dist speed.
    assert (tangent_arc (L := RefLibm.libm) 100 st
              (dist (L := RefLibm.libm) loc.zero goal)
              (atan2 (Libm := RefLibm.libm) (loc.y goal - loc.y loc.zero)
                 (loc.x goal - loc.x loc.zero)) loc.zero
            = Some (1.5707963267948966, 0.99999999999999978,
                    1.5707963267948961)%float) as Htan
      by (vm_compute; reflexivity).
    pose proof (forward_speed (L := RefLibm.libm) 100 (mkTime 100 0) st
                  loc.zero goal _ _ _ eq_refl eq_refl eq_refl Htan) as [Hfree _].
    destruct (Hfree ltac:(vm_compute; reflexivity))
      as [poses [_ [Hplan [Hmin _]]]].
    exists 0.99999999999999978%float, poses.
    split; [exact Hplan|exact Hmin].
  - intros st goal.
    assert (tangent_arc (L := RefLibm.libm) 100 st
              (dist (L := RefLibm.libm) loc.zero goal)
              (atan2 (Libm := RefLibm.libm) (loc.y goal - loc.y loc.zero)
                 (loc.x goal - loc.x loc.zero)) loc.zero
            = Some (-1.5707963267948966, -0.99999999999999978,
                    1.5707963267948961)%float) as Htan
      by (vm_compute; reflexivity).
    pose proof (forward_speed (L := RefLibm.libm) 100 (mkTime 100 0) st
                  loc.zero goal _ _ _ eq_refl eq_refl eq_refl Htan) as [_ Hfall].
    specialize (Hfall 0%float
                  [0.695; -0.695; 0.695 * 2; -0.695 * 2; 0.695 * 4; -0.695 * 4;
                   0.695 * 8; -0.695 * 8]%float).
    cbv zeta in Hfall.
    match type of Hfall with
    | forall poses, _ -> _ -> ?path = Some poses -> _ =>
        destruct path as [poses|] eqn:Hposes;
          [|vm_compute in Hposes; discriminate]
    end.
    destruct (Hfall poses ltac:(vm_compute; reflexivity)
                ltac:(vm_compute; reflexivity) eq_refl)
      as [speed [Hplan [Hmax Hspeed]]].
    eexists speed, _, poses. split; [exact Hplan|].
    split; [vm_compute; reflexivity|]. split; [exact Hmax|].
    rewrite (Hspeed ltac:(vm_compute; reflexivity)).
    vm_compute. reflexivity.
Defined.

(** C8 as stated fails when the tangent arc is taken: in the run above the
    selected arc is [1.5708] long, the speed the claim computes from it is
    [1.178], and the planner returns [1.0607], computed from the distance
    [1.4142] to the goal. *)
Lemma forward_speed_not_from_arc_length :
  let st := driving empty_map in
  let goal := loc.mk 1 1 0 in
  exists (alpha radius arc_len speed : float) (st' : planner)
         (out : list output),
    tangent_arc (L := RefLibm.libm) 100 st
      (dist (L := RefLibm.libm) loc.zero goal)
      (atan2 (Libm := RefLibm.libm) (loc.y goal - loc.y loc.zero)
         (loc.x goal - loc.x loc.zero)) loc.zero
    = Some (alpha, radius, arc_len)
    /\ plan_path (L := RefLibm.libm) 100 (mkTime 100 0) st loc.zero goal
       = Some (mkPath speed radius, st', out)
    /\ Double.lt speed 1.07 = true
    /\ Double.lt 1.17
         (clamp (max_speed st * 2 * arc_len / planner_lookahead st)
            (min_speed st) (max_speed st)) = true.
Proof.
  intros st goal.
  exists 1.5707963267948966%float, 0.99999999999999978%float,
         1.5707963267948961%float, 1.0606601717798214%float.
  eexists _, _.
  split; [vm_compute; reflexivity|].
  split; [vm_compute; reflexivity|].
  split; reflexivity.
Qed.

(** The floor on a sampled arc. Line 424 raises the speed to [min_speed];
    line 528 computes the speed of a sampled arc anew and nothing raises it
    again. With [min_speed] reconfigured to [1.2], in a corridor whose walls
    block every turn, towards a goal [1.43] m away: only the straight line
    passes, and the planner returns [1.0738], below [min_speed]. *)
Lemma fallback_speed_below_min_speed :
  let st := reconfigureCb hurried_config (driving corridor) in
  let goal := loc.mk 1.4 0.3 0 in
  let traverse_dist :=
    Double.min (dist (L := RefLibm.libm) loc.zero goal) (planner_lookahead st) in
  candidate_arcs (L := RefLibm.libm) 100 st loc.zero traverse_dist
  = Some [0%float]
  /\ exists (speed : float) (st' : planner) (out : list output),
       plan_path (L := RefLibm.libm) 100 (mkTime 100 0) st loc.zero goal
       = Some (mkPath speed 0, st', out)
       /\ Double.lt speed 1.08 = true
       /\ Double.lt speed (min_speed st) = true.
Proof.
  intros st goal traverse_dist.
  split; [vm_compute; reflexivity|].
  exists 1.0738365797457265%float. eexists _, _.
  split; [vm_compute; reflexivity|].
  split; reflexivity.
Qed.

(* ------------------------------------------------------------------ *)
(** * A transform that is not available *)

Section DetectorFailure.
Context {L : Libm} {T : ConeDetector.Listener}.
Import ConeDetector.

Lemma segment_no_transform (det : detector) (msg : LaserScan)
    (rs : list float) (theta : float) (prev : Point)
    (groups : list (list Point)) :
  (forall frame p, transformPoint frame p = None) ->
  segment det msg rs theta prev groups = groups.
Proof.
  intros Hfail. revert theta.
  induction rs as [|r rs IH]; intros theta; simpl; [done|].
  destruct (Double.ge r (range_min msg)); [now rewrite Hfail|apply IH].
Qed.

Lemma detect_circle_empty (det : detector) (now : Time)
    (cs new_cones : list cone_type) :
  detect_circle det now [] cs new_cones = (cs, new_cones).
Proof.
  unfold detect_circle. simpl length.
  destruct (size_t (min_circle_size det) <? Z.of_nat 0)%Z eqn:E; [|done].
  apply Z.ltb_lt in E. unfold size_t in E.
  pose proof (Z.mod_pos_bound (min_circle_size det) (2 ^ 64)). lia.
Qed.

Lemma laserCallback_no_transform (now : Time) (msg : LaserScan)
    (det : detector) :
  (forall frame p, transformPoint frame p = None) ->
  laserCallback now msg det
  = (set_cones (retained now (cones det)) det,
     mkMarker (scan_stamp msg) (map snd (retained now (cones det)))).
Proof.
  intros Hfail. unfold laserCallback.
  rewrite segment_no_transform by exact Hfail.
  simpl fold_left. rewrite detect_circle_empty. reflexivity.
Qed.

End DetectorFailure.

Section PlannerFailure.
Context {L : Libm} {T : Tf2}.

Lemma positionCallback_no_transform (fuel : nat) (now : Time)
    (msg : Odometry) (st : planner) :
  odom_frame_id msg <> frame_id (goal_msg st) ->
  canTransform (odom_frame_id msg) (frame_id (goal_msg st))
    (stamp (goal_msg st)) = false ->
  let here := loc.mk (odom_x msg) (odom_y msg) (odom_yaw msg) in
  positionCallback fuel now msg st
  = Some (set_position_frame (odom_frame_id msg)
            (set_last_pose here (set_last_loc here st)), []).
Proof.
  intros Hframe Hcan here. unfold positionCallback, goal_in_frame.
  fold here. simpl goal_msg.
  rewrite bool_decide_eq_true_2 by exact Hframe. now rewrite Hcan.
Qed.

End PlannerFailure.

(** C2, as the code has it. When no transform is available:
    - the detector adds no cone, but its retention step and its publication
      still run: the stored collection becomes its members seen less than
      two seconds ago and the marker carries their points;
    - the planner has stored the pose of the odometry message in
      [last_loc], [last_pose] and [position_frame] before it looks for the
      transform; the goal, the mode, the timers, [active] and the grid keep
      their values, and no command is published. *)
Theorem transform_failure_effects :
  (forall (L : Libm) (T : ConeDetector.Listener) (now : Time)
          (msg : LaserScan) (det : ConeDetector.detector),
     (forall frame p, ConeDetector.transformPoint frame p = None) ->
     ConeDetector.laserCallback now msg det
     = (ConeDetector.set_cones
          (ConeDetector.retained now (ConeDetector.cones det)) det,
        ConeDetector.mkMarker (scan_stamp msg)
          (map snd (ConeDetector.retained now (ConeDetector.cones det)))))
  /\
  (forall (L : Libm) (T : Tf2) (fuel : nat) (now : Time) (msg : Odometry)
          (st : planner),
     odom_frame_id msg <> frame_id (goal_msg st) ->
     canTransform (odom_frame_id msg) (frame_id (goal_msg st))
       (stamp (goal_msg st)) = false ->
     let here := loc.mk (odom_x msg) (odom_y msg) (odom_yaw msg) in
     positionCallback fuel now msg st
     = Some (set_position_frame (odom_frame_id msg)
               (set_last_pose here (set_last_loc here st)), [])).
Proof.
  split.
  - intros L T. apply laserCallback_no_transform.
  - intros L T. apply positionCallback_no_transform.
Qed.

(** A one-beam scan at second 10 and an odometry message in the frame
    [odom], with no transform: the detector keeps its fresh cone and
    publishes it, the planner stores the pose and publishes nothing. *)
Lemma transform_failure_effects_witness :
  ConeDetector.laserCallback (L := RefLibm.libm) (T := no_listener)
    (mkTime 10 0)
    (mkLaserScan "laser" (mkTime 10 0) 0 0.01 0.1 [1.0%float])
    one_cone
  = (one_cone,
     ConeDetector.mkMarker (mkTime 10 0) [ConeDetector.mkPoint 1 1 0])
  /\
  positionCallback (L := RefLibm.libm) (T := no_tf2) 0 (mkTime 10 0)
    (mkOdometry "odom" 3 4 0.5 0) goal_in_map
  = Some (set_position_frame "odom"
            (set_last_pose (loc.mk 3 4 0.5)
               (set_last_loc (loc.mk 3 4 0.5) goal_in_map)), []).
Proof.
  destruct transform_failure_effects as [Hdet Hplan]. split.
  - rewrite (Hdet RefLibm.libm no_listener) by reflexivity. reflexivity.
  - apply (Hplan RefLibm.libm no_tf2); [discriminate|reflexivity].
Defined.

(** C2 as stated fails for both nodes. A scan at second 10 whose transform
    fails empties a detector that held a cone seen at second 1, and a marker
    is published; an odometry message whose goal transform fails replaces
    the stored pose [(0, 0, 0)] by [(3, 4, 0.5)] and the stored frame. *)
Lemma transform_failure_mutates_state :
  let det := ConeDetector.set_cones
               [(mkTime 1 0, ConeDetector.mkPoint 1 1 0)]
               ConeDetector.initial_detector in
  let scan := mkLaserScan "laser" (mkTime 10 0) 0 0.01 0.1
                [1.0%float] in
  (forall frame p,
     ConeDetector.transformPoint (Listener := no_listener) frame p = None)
  /\ ConeDetector.cones det = [(mkTime 1 0, ConeDetector.mkPoint 1 1 0)]
  /\ ConeDetector.laserCallback (L := RefLibm.libm) (T := no_listener)
       (mkTime 10 0) scan det
     = (ConeDetector.set_cones [] det, ConeDetector.mkMarker (mkTime 10 0) [])
  /\ canTransform (Tf2 := no_tf2) "odom" (frame_id (goal_msg goal_in_map))
       (stamp (goal_msg goal_in_map)) = false
  /\ last_loc goal_in_map = loc.mk 0 0 0
  /\ position_frame goal_in_map = ""
  /\ exists st' : planner,
       positionCallback (L := RefLibm.libm) (T := no_tf2) 0 (mkTime 10 0)
         (mkOdometry "odom" 3 4 0.5 0) goal_in_map = Some (st', [])
       /\ last_loc st' = loc.mk 3 4 0.5
       /\ position_frame st' = "odom".
Proof.
  intros det scan. repeat split.
  eexists. repeat split.
Qed.

(* ------------------------------------------------------------------ *)
(** * Where the code leaves the specification *)

(** C4, the code at a failing input. The robot is at the origin heading
    along x, the goal is at [(1, -1)], ahead on the right, and one obstacle
    blocks the tangent arc. All nine sampled arcs pass the collision test.
    The selection loop computes its length as [min(traverse_dist, r*pi/2)]:
    [0] for the straight line and [r*pi/2 < 0] for a right turn, so it
    scores the straight line at the start and every right turn at a point
    behind the robot. It returns the left turn of radius [8*min_radius];
    scored as the specification says, the right turn of radius
    [-2*min_radius] ends [0.39] from the goal and the chosen arc [1.24]. *)
Lemma fallback_scores_right_turns_behind :
  let st := driving blocked_tangent in
  let goal := loc.mk 1 (-1) 0 in
  let traverse_dist :=
    Double.min (dist (L := RefLibm.libm) loc.zero goal) (planner_lookahead st) in
  candidate_arcs (L := RefLibm.libm) 100 st loc.zero traverse_dist
  = Some [0; 0.695; -0.695; 0.695 * 2; -0.695 * 2; 0.695 * 4; -0.695 * 4;
          0.695 * 8; -0.695 * 8]%float
  /\ arc_score (L := RefLibm.libm) loc.zero goal traverse_dist 0
     = dist (L := RefLibm.libm) loc.zero goal
  /\ Double.lt (loc.x (arc_end (L := RefLibm.libm) loc.zero (-0.695 * 2)
                         (Double.min traverse_dist
                            (-0.695 * 2 * Double.M_PI / 2)))) 0 = true
  /\ (exists (speed : float) (st' : planner) (out : list output),
        plan_path (L := RefLibm.libm) 100 (mkTime 100 0) st loc.zero goal
        = Some (mkPath speed (0.695 * 8), st', out))
  /\ Double.lt (spec_arc_score (L := RefLibm.libm) loc.zero goal
                  traverse_dist (-0.695 * 2)) 0.39 = true
  /\ Double.lt 1.24 (spec_arc_score (L := RefLibm.libm) loc.zero goal
                       traverse_dist (0.695 * 8)) = true.
Proof.
  intros st goal traverse_dist.
  split; [vm_compute; reflexivity|].
  split; [vm_compute; reflexivity|].
  split; [vm_compute; reflexivity|].
  split; [eexists _, _, _; vm_compute; reflexivity|].
  split; vm_compute; reflexivity.
Qed.

(** C5, the code at a failing input. For every [Libm], the arc of radius 1
    and length 1 from the pose [(0, 0, 0)] followed by the arc of radius 1
    and length -1 ends at the yaw [-pi], not [0]: [arc_end] returns the
    polar angle of the robot about the centre of the circle, a quarter turn
    behind its heading. With the reference [Libm] the position returned is
    [(0.38, 1.30)], not [(0, 0)]. The straight branch returns to the start. *)
Lemma arc_round_trip_misses_start :
  (forall L : Libm,
     loc.pose (arc_end (arc_end loc.zero 1 1) 1 (-1)) = (- Double.M_PI)%float)
  /\ Double.lt 0.38
       (loc.x (arc_end (L := RefLibm.libm)
                 (arc_end (L := RefLibm.libm) loc.zero 1 1) 1 (-1))) = true
  /\ Double.lt 1.3
       (loc.y (arc_end (L := RefLibm.libm)
                 (arc_end (L := RefLibm.libm) loc.zero 1 1) 1 (-1))) = true
  /\ arc_end (L := RefLibm.libm) (arc_end (L := RefLibm.libm) loc.zero 0 1)
       0 (-1) = loc.zero.
Proof.
  split; [intros L; vm_compute; reflexivity|].
  repeat split; vm_compute; reflexivity.
Qed.

(** C6, the code at a failing input. The robot is at the origin with yaw 0
    and the cell 0.4 m to its left holds an obstacle. The sampled footprint
    point [(-0.01, 0.38)] is in that cell after the rotation and the
    translation, and the cell still holds the obstacle after the footprint
    is cleared: the loop writes at [(bx*cos(yaw), by*sin(yaw))], which for
    this yaw is the row [y = 0]. *)
Lemma footprint_clear_misses_rectangle :
  let g : gmap Z Z := {[ 2500 * 5000 + 2504 := 4 ]} in
  let bx := (-0.009999999999999995)%float in
  let by_ := 0.37999999999999995%float in
  bx ∈ footprint_bx
  /\ by_ ∈ footprint_by
  /\ spec_footprint_point (L := RefLibm.libm) loc.zero bx by_ = (bx, by_)
  /\ (cell bx, cell by_) = (2500, 2504)
  /\ map_get (clear_footprint (L := RefLibm.libm) loc.zero g) bx by_ = 4.
Proof.
  intros g bx by_.
  split; [vm_compute; do 3 right; left|].
  split; [vm_compute; do 11 right; left|].
  repeat split; vm_compute; reflexivity.
Qed.

(* ------------------------------------------------------------------ *)
(** * The grid: what a write and a merge do to a cell *)

(** X4. Reading after writing: a read at [(x', y')] after a write of [v] at
    [(x, y)] returns [v] when both points round to the same cell of the
    grid, and what the grid held before in every other case (another cell,
    or a write that fell outside the grid). *)
Theorem map_get_after_map_set (map_data : gmap Z Z) (x y x' y' : float)
    (v : Z) :
  map_get (map_set map_data x y v) x' y'
  = if in_map (cell x) (cell y)
       && bool_decide (cell x = cell x' /\ cell y = cell y')
    then v
    else map_get map_data x' y'.
Proof.
  unfold map_get, map_set.
  destruct (in_map (cell x) (cell y)) eqn:Hin; simpl; [|done].
  destruct (bool_decide_reflect (cell x = cell x' /\ cell y = cell y'))
    as [[Hx Hy]|Hne].
  - rewrite <- Hx, <- Hy, Hin, map_at_insert. now destruct (decide _).
  - destruct (in_map (cell x') (cell y')) eqn:Hin'; [|done].
    rewrite map_at_insert. destruct (decide _) as [Heq|]; [|done].
    apply in_map_spec in Hin, Hin'.
    apply row_major_inj in Heq; [tauto|tauto|tauto].
Qed.

(** Case analysis on the innermost comparisons of the goal. *)
Ltac ltb_cases :=
  repeat match goal with
         | |- context [Z.ltb ?a ?b] =>
             lazymatch a with
             | context [Z.ltb] => fail
             | _ => destruct (Z.ltb_spec a b)
             end
         end.

(** X5. The merge never leaves the range of [int8_t]: for every local
    value of an [int8_t] and a cell in [0..4], the value stored is
    [global + 2] for an obstacle (whatever its inflation ring) and
    [global + local] otherwise, cut to [0..4]. *)
Theorem merge_value_saturates (local global : Z) :
  -128 <= local <= 127 ->
  0 <= global <= 4 ->
  merge_value local global
  = Z.max 0 (Z.min 4 (global + (if 0 <? local then 2 else local))).
Proof.
  intros Hl Hg. unfold merge_value, map_type.
  replace ((0 + local + 128) mod 256 - 128) with local
    by (rewrite Z.mod_small; lia).
  destruct (Z.ltb_spec 0 local); rewrite Z.mod_small by lia;
    ltb_cases; lia.
Qed.

(** An inflated obstacle of ring 3 on a cell that holds 3: the cell
    saturates at 4. *)
Lemma merge_value_saturates_witness : merge_value 3 3 = 4.
Proof. apply (merge_value_saturates 3 3); lia. Defined.

Lemma merge_value_unknown (global : Z) :
  0 <= global <= 4 -> merge_value 0 global = global.
Proof.
  intros Hg. unfold merge_value, map_type.
  change ((0 + 0 + 128) mod 256 - 128) with 0. change (0 <? 0) with false.
  cbv iota. rewrite Z.mod_small by lia. ltb_cases; lia.
Qed.

Section GridEffects.
Context {L : Libm}.

(** X6. A scan that saw nothing: merging a local map with no free and no
    obstacle cell leaves the value of every cell of a grid that is in
    range. *)
Theorem merge_unknown_keeps_cells (here : loc.t) (g : gmap Z Z) (k : Z) :
  cells_in_range g ->
  map_at (merge_local ∅ here g) k = map_at g k.
Proof.
  intros Hg. revert k. unfold merge_local.
  apply (fold_left_invariant (fun g' : gmap Z Z => forall k, map_at g' k = map_at g k));
    [|done].
  intros g1 i Hg1.
  apply (fold_left_invariant (fun g' : gmap Z Z => forall k, map_at g' k = map_at g k));
    [|exact Hg1].
  intros g2 j Hg2 k. unfold merge_cell, map_set.
  destruct (in_map _ _) eqn:Hin; [|apply Hg2].
  unfold map_get. rewrite Hin, map_at_insert.
  destruct (decide _) as [<-|]; [|apply Hg2].
  unfold map_at at 1. rewrite lookup_empty. simpl default.
  rewrite merge_value_unknown; [apply Hg2|]. rewrite Hg2. apply Hg.
Qed.

(** X7. The footprint step only clears: after it every cell holds what it
    held before, or [0]. *)
Theorem clear_footprint_only_clears (here : loc.t) (g : gmap Z Z) (k : Z) :
  map_at (clear_footprint here g) k = map_at g k
  \/ map_at (clear_footprint here g) k = 0.
Proof.
  revert k. unfold clear_footprint.
  apply (fold_left_invariant
           (fun g' : gmap Z Z =>
              forall k, map_at g' k = map_at g k \/ map_at g' k = 0));
    [|now left].
  intros g1 bx Hg1.
  apply (fold_left_invariant
           (fun g' : gmap Z Z =>
              forall k, map_at g' k = map_at g k \/ map_at g' k = 0));
    [|exact Hg1].
  intros g2 by_ Hg2 k. unfold map_set.
  destruct (in_map _ _); [|apply Hg2].
  rewrite map_at_insert. destruct (decide _); [now right|apply Hg2].
Qed.

End GridEffects.

(** A grid with one cell at 3, merged with a local map that saw nothing. *)
Lemma merge_unknown_keeps_cells_witness :
  map_at (merge_local ∅ loc.zero {[ 12502500 := 3 ]}) 12502500 = 3.
Proof.
  rewrite merge_unknown_keeps_cells; [reflexivity|].
  intros k. unfold map_at.
  destruct (decide (k = 12502500)) as [->|Hne].
  - rewrite lookup_singleton_eq. simpl. lia.
  - rewrite lookup_singleton_ne by congruence. simpl. lia.
Defined.

(* ------------------------------------------------------------------ *)
(** * The local map of a scan *)

Lemma local_ok_insert (local_map : gmap Z Z) (k v : Z) :
  local_ok local_map ->
  0 <= k < LOCAL_MAP_SIZE * LOCAL_MAP_SIZE -> -1 <= v <= 4 ->
  local_ok (<[ k := v ]> local_map).
Proof.
  intros Hok Hk Hv k' v' Hlook.
  destruct (decide (k = k')) as [<-|Hne].
  - rewrite lookup_insert_eq in Hlook. now inversion Hlook; subst.
  - rewrite lookup_insert_ne in Hlook by exact Hne. now apply Hok.
Qed.

Lemma in_local_index (j k : Z) :
  in_local j k = true ->
  0 <= j * LOCAL_MAP_SIZE + k < LOCAL_MAP_SIZE * LOCAL_MAP_SIZE.
Proof.
  unfold in_local, LOCAL_MAP_SIZE.
  rewrite !andb_true_iff, !Z.ltb_lt. lia.
Qed.

Lemma fold_left_invariant_in {A B : Type} (P : A -> Prop) (f : A -> B -> A)
    (l : list B) (a : A) :
  (forall a b, b ∈ l -> P a -> P (f a b)) -> P a -> P (fold_left f l a).
Proof.
  revert a. induction l as [|b l IH]; intros a Hf Ha; simpl; [done|].
  apply IH.
  - intros a' b' Hb'. apply Hf. now right.
  - apply Hf; [left|exact Ha].
Qed.

Lemma grow_radii_range (r : Z) : r ∈ grow_radii -> 1 <= r <= 3.
Proof.
  replace grow_radii with [1; 2; 3] by (vm_compute; reflexivity).
  rewrite !elem_of_cons, elem_of_nil. lia.
Qed.

Lemma grow_cell_ok (beyond : Z -> Z) (r i j : Z) (local_map : gmap Z Z) :
  1 <= r <= 3 -> 0 <= i < LOCAL_MAP_SIZE -> 0 <= j < LOCAL_MAP_SIZE ->
  local_ok local_map -> local_ok (grow_cell beyond r local_map i j).
Proof.
  intros Hr Hi Hj Hok. unfold grow_cell.
  assert (0 <= i * LOCAL_MAP_SIZE + j < LOCAL_MAP_SIZE * LOCAL_MAP_SIZE)
    by (unfold LOCAL_MAP_SIZE in *; lia).
  destruct (_ <=? 0); [|exact Hok].
  repeat match goal with
         | |- context [if ?c then _ else _] => destruct c
         end;
    repeat (apply local_ok_insert; try lia); exact Hok.
Qed.

Lemma grow_ok (beyond : Z -> Z) (local_map : gmap Z Z) :
  local_ok local_map -> local_ok (grow beyond local_map).
Proof.
  intros Hok. unfold grow.
  apply fold_left_invariant_in; [|exact Hok]. intros m r Hr Hm.
  apply grow_radii_range in Hr.
  apply fold_left_invariant_in; [|exact Hm]. intros m1 i Hi Hm1.
  apply elem_of_seqZ in Hi.
  apply fold_left_invariant_in; [|exact Hm1]. intros m2 j Hj Hm2.
  apply elem_of_seqZ in Hj.
  apply grow_cell_ok; try lia; exact Hm2.
Qed.

Section LocalMap.
Context {L : Libm}.

Lemma trace_ray_ok (fuel : nat) (offset_x offset_y theta r d : float)
    (local_map local_map' : gmap Z Z) :
  trace_ray fuel offset_x offset_y theta r d local_map = Some local_map' ->
  local_ok local_map -> local_ok local_map'.
Proof.
  revert d local_map. induction fuel as [|n IH]; intros d lm; simpl; [done|].
  destruct (Double.lt d r); [|now intros [= <-]].
  destruct (in_local _ _) eqn:Hin; [|now intros [= <-]].
  intros Hray Hok. eapply IH; [exact Hray|].
  apply local_ok_insert; [exact Hok|now apply in_local_index|lia].
Qed.

Lemma raytrace_ok (fuel : nat) (msg : LaserScan) (offset_x offset_y : float)
    (rs : list float) (theta : float) (local_map local_map' : gmap Z Z) :
  raytrace fuel msg offset_x offset_y rs theta local_map = Some local_map' ->
  local_ok local_map -> local_ok local_map'.
Proof.
  revert theta local_map. induction rs as [|r rs IH]; intros theta lm; simpl.
  - now intros [= <-].
  - intros Hrun Hok. apply bind_Some in Hrun as [lm1 [Hray Hrest]].
    eapply IH; [exact Hrest|].
    destruct (decode_range _ _); [|now inversion Hray; subst].
    eapply trace_ray_ok; eauto.
Qed.

Lemma mark_obstacles_ok (msg : LaserScan) (offset_x offset_y : float)
    (rs : list float) (theta : float) (local_map : gmap Z Z) :
  local_ok local_map ->
  local_ok (mark_obstacles msg offset_x offset_y rs theta local_map).
Proof.
  revert theta local_map. induction rs as [|r rs IH]; intros theta lm Hok;
    simpl; [exact Hok|].
  apply IH. destruct (Double.gt r _); [|exact Hok].
  destruct (in_local _ _) eqn:Hin; [|exact Hok].
  apply local_ok_insert; [exact Hok|now apply in_local_index|lia].
Qed.

(** X8. The local map of a scan is well formed, whatever the scan and
    whatever lies past the buffer: every cell written is inside the
    [LOCAL_MAP_SIZE x LOCAL_MAP_SIZE] buffer and holds [-1] (free), or
    [1..4] (an obstacle and its inflation rings). *)
Theorem build_local_map_ok (fuel : nat) (msg : LaserScan) (beyond : Z -> Z)
    (here : loc.t) (local_map : gmap Z Z) :
  build_local_map fuel msg beyond here = Some local_map ->
  local_ok local_map.
Proof.
  unfold build_local_map. intros Hbuild.
  apply bind_Some in Hbuild as [lm [Hray Hrest]].
  apply (inj Some) in Hrest. rewrite <- Hrest.
  apply grow_ok, mark_obstacles_ok.
  eapply raytrace_ok; [exact Hray|]. intros k v Hlook.
  now rewrite lookup_empty in Hlook.
Qed.

End LocalMap.

(** The local map of the wall one metre ahead. *)
Lemma build_local_map_ok_witness :
  exists local_map : gmap Z Z,
    build_local_map (L := RefLibm.libm) 100 wall_ahead (fun _ => 0) loc.zero
    = Some local_map
    /\ local_ok local_map.
Proof.
  assert (is_Some (build_local_map (L := RefLibm.libm) 100 wall_ahead
                     (fun _ => 0) loc.zero)) as [local_map Hlocal]
    by (apply is_Some_alt; vm_compute; exact I).
  exists local_map. split; [exact Hlocal|].
  exact (build_local_map_ok (L := RefLibm.libm) _ _ _ _ _ Hlocal).
Defined.

Section ScanReturns.
Context {L : Libm}.

Lemma trace_ray_ends (offset_x offset_y theta r : float) (fuel k : nat)
    (d : float) (local_map : gmap Z Z) :
  (k < fuel)%nat ->
  Double.lt (Nat.iter k (fun v => (v + HALF_RES)%float) d) r = false ->
  is_Some (trace_ray fuel offset_x offset_y theta r d local_map).
Proof.
  revert k d local_map.
  induction fuel as [|n IH]; intros k d lm Hk Hstop; [lia|].
  simpl. destruct (Double.lt d r) eqn:E; [|done].
  destruct (in_local _ _); [|done].
  destruct k as [|k]; [simpl in Hstop; congruence|].
  rewrite Nat.iter_succ_r in Hstop.
  apply (IH k); [lia|exact Hstop].
Qed.

Lemma trace_ray_within_22 (offset_x offset_y theta r : float)
    (local_map : gmap Z Z) :
  Double.gt r 22.0 = false ->
  is_Some (trace_ray 441 offset_x offset_y theta r 0 local_map).
Proof.
  intros Hr. apply (trace_ray_ends _ _ _ _ 441 440); [lia|].
  destruct (Double.lt _ r) eqn:E; [|done].
  assert (Double.lt 22.0 (Nat.iter 440 (fun v => (v + HALF_RES)%float) 0%float)
          = true) as Hpast by (vm_compute; reflexivity).
  pose proof (DoubleFacts.lt_trans _ _ _ Hpast E) as Hlt.
  unfold Double.gt in Hr. unfold Double.lt in Hlt. congruence.
Qed.

Lemma decode_range_within_22 (range_min r r' : float) :
  Double.gt r 22.0 = false ->
  decode_range range_min r = Some r' ->
  Double.gt r' 22.0 = false.
Proof.
  intros Hr. unfold decode_range.
  destruct (Double.lt r range_min); [|now intros [= <-]].
  destruct (Double.eq r 0); [now intros [= <-]|].
  destruct (_ && _); [now intros [= <-]|].
  destruct (_ && _); [now intros [= <-]|discriminate].
Qed.

Lemma raytrace_returns (fuel : nat) (msg : LaserScan)
    (offset_x offset_y : float) (rs : list float) (theta : float)
    (local_map : gmap Z Z) :
  (forall theta r local_map,
     Double.gt r 22.0 = false ->
     is_Some (trace_ray fuel offset_x offset_y theta r 0 local_map)) ->
  Forall (fun r => Double.gt r 22.0 = false) rs ->
  is_Some (raytrace fuel msg offset_x offset_y rs theta local_map).
Proof.
  intros Hray Hrs. revert theta local_map.
  induction Hrs as [|r rs Hr _ IH]; intros theta lm; simpl; [done|].
  destruct (decode_range (range_min msg) r) as [r'|] eqn:Hdec.
  - destruct (Hray theta r' lm (decode_range_within_22 _ _ _ Hr Hdec))
      as [lm' ->].
    simpl. apply IH.
  - simpl. apply IH.
Qed.

(** X9. The scan handler returns: when no range of the scan is above 22 m
    (the range a status code is traced to), every ray ends within 441 steps
    and [laserCallback] returns, whatever the pose, the grid and the rest of
    the scan. *)
Theorem laserCallback_returns (msg : LaserScan) (beyond : Z -> Z)
    (st : planner) :
  Forall (fun r => Double.gt r 22.0 = false) (ranges msg) ->
  is_Some (laserCallback 441 msg beyond st).
Proof.
  intros Hrs. unfold laserCallback, build_local_map.
  destruct (raytrace_returns 441 msg
              (Double.modf (loc.x (last_loc st) / MAP_RES) * MAP_RES
               + LASER_OFFSET * cos (loc.pose (last_loc st)))%float
              (Double.modf (loc.y (last_loc st) / MAP_RES) * MAP_RES
               + LASER_OFFSET * sin (loc.pose (last_loc st)))%float
              (ranges msg) (loc.pose (last_loc st) + angle_min msg)%float ∅
              (fun theta r lm => trace_ray_within_22 _ _ theta r lm) Hrs)
    as [lm Hlm].
  rewrite Hlm. eexists. reflexivity.
Qed.

End ScanReturns.

(** The wall one metre ahead, scanned at start-up. *)
Lemma laserCallback_returns_witness :
  is_Some (laserCallback (L := RefLibm.libm) 441 wall_ahead (fun _ => 0)
             initial_planner).
Proof.
  apply (laserCallback_returns (L := RefLibm.libm)).
  repeat constructor.
Defined.

(* ------------------------------------------------------------------ *)
(** * Arcs on a grid with fewer obstacles *)

(** A point that is free on [g] is free on a grid with no more obstacles. *)
Lemma test_collision_fewer (g g' : gmap Z Z) (p : point) :
  (forall k, map_at g k = 0 -> map_at g' k = 0) ->
  test_collision g p = false -> test_collision g' p = false.
Proof.
  intros Hsub. unfold test_collision, map_get.
  destruct (in_map _ _); [|done].
  rewrite !negb_false_iff, !Z.eqb_eq. apply Hsub.
Qed.

Section ArcObstacles.
Context {L : Libm}.

Lemma existsb_collision_fewer (g g' : gmap Z Z) (ps : list point) :
  (forall k, map_at g k = 0 -> map_at g' k = 0) ->
  existsb (test_collision g) ps = false ->
  existsb (test_collision g') ps = false.
Proof.
  intros Hsub. induction ps as [|p ps IH]; simpl; [done|].
  rewrite !orb_false_iff. intros [Hp Hps].
  split; [now apply (test_collision_fewer g)|now apply IH].
Qed.

(** X10. Clearing cells never blocks an arc: when every cell that is free in
    [g] is free in [g'], an arc the collision test accepts on [g] is
    accepted on [g'], with the same number of steps of its loop. *)
Theorem test_arc_fewer_obstacles (fuel : nat) (g g' : gmap Z Z)
    (start : loc.t) (r l : float) :
  (forall k, map_at g k = 0 -> map_at g' k = 0) ->
  test_arc fuel g start r l = Some true ->
  test_arc fuel g' start r l = Some true.
Proof.
  intros Hsub. unfold test_arc, test_arc_run.
  destruct (Double.ne r 0); rewrite !test_arc_loop_follows; simpl;
    (destruct (existsb (test_collision g) _) eqn:E; [discriminate|];
     now rewrite (existsb_collision_fewer g g' _ Hsub E)).
Qed.

End ArcObstacles.

(** An arc that is free beside one obstacle is free on the empty grid. *)
Lemma test_arc_fewer_obstacles_witness :
  test_arc (L := RefLibm.libm) 100 empty_map loc.zero (-1) 1.5 = Some true.
Proof.
  apply (test_arc_fewer_obstacles (L := RefLibm.libm) 100
           {[ 12502505 := 4 ]} empty_map).
  - intros k _. unfold map_at, empty_map. now rewrite lookup_empty.
  - vm_compute. reflexivity.
Defined.

(* ------------------------------------------------------------------ *)
(** * FORWARD: the tangent arc and the fallback radii *)

(** [std::min(a, b)] is never above [b], [std::max(a, b)] never below [b]. *)
Lemma min_not_above_r (a b : float) : Double.gt (Double.min a b) b = false.
Proof.
  unfold Double.gt, Double.min. fold (Double.lt b (if Double.lt b a then b else a)).
  destruct (Double.lt b a) eqn:E; [apply DoubleFacts.lt_irrefl|exact E].
Qed.

Lemma max_not_below_r (a b : float) : Double.lt (Double.max a b) b = false.
Proof.
  unfold Double.max.
  destruct (Double.lt a b) eqn:E; [apply DoubleFacts.lt_irrefl|exact E].
Qed.

Section TangentArc.
Context {L : Libm}.
#[local] Open Scope float_scope.

(** X11. The limits of the tangent arc. Whenever the computation of the
    tangent arc returns, its radius is not below [-max_radius] and its length
    is not above [planner_lookahead]; when [max_radius] is not below
    [-max_radius] (it is not negative), the radius is not above [max_radius]
    either. *)
Theorem tangent_arc_within_limits (fuel : nat) (st : planner)
    (d theta : float) (start : loc.t) (alpha radius arc_len : float) :
  tangent_arc fuel st d theta start = Some (alpha, radius, arc_len) ->
  Double.lt radius (- max_radius st) = false
  /\ Double.gt arc_len (planner_lookahead st) = false
  /\ (Double.lt (max_radius st) (- max_radius st) = false ->
      Double.gt radius (max_radius st) = false).
Proof.
  unfold tangent_arc. intros H.
  apply bind_Some in H as [a1 [_ H]].
  apply bind_Some in H as [a2 [_ H]].
  destruct (Double.lt (Double.fabs _) (min_radius st));
    apply (inj Some) in H; injection H as _ <- <-;
    (split; [apply max_not_below_r|]; split; [apply min_not_above_r|];
     intros Hmax; unfold Double.max;
     destruct (Double.lt (Double.min _ (max_radius st)) (- max_radius st));
     [exact Hmax|apply min_not_above_r]).
Qed.

End TangentArc.

(** A goal a hundred metres ahead, a metre to the left: the radius is cut to
    [max_radius], the length to the look-ahead. *)
Lemma tangent_arc_within_limits_witness :
  exists alpha radius arc_len : float,
    tangent_arc (L := RefLibm.libm) 10 (driving empty_map)
      (dist (L := RefLibm.libm) loc.zero (loc.mk 100 1 0))
      (atan2 (Libm := RefLibm.libm) 1 100) loc.zero
    = Some (alpha, radius, arc_len)
    /\ Double.lt radius (- max_radius (driving empty_map)) = false
    /\ Double.gt arc_len (planner_lookahead (driving empty_map)) = false
    /\ Double.gt radius (max_radius (driving empty_map)) = false.
Proof.
  destruct (tangent_arc (L := RefLibm.libm) 10 (driving empty_map)
      (dist (L := RefLibm.libm) loc.zero (loc.mk 100 1 0))
      (atan2 (Libm := RefLibm.libm) 1 100) loc.zero)
    as [[[alpha radius] arc_len]|] eqn:Htan;
    [|vm_compute in Htan; discriminate].
  exists alpha, radius, arc_len. split; [reflexivity|].
  destruct (tangent_arc_within_limits (L := RefLibm.libm) _ _ _ _ _ _ _ _ Htan)
    as [Hlow [Hlen Hhigh]].
  split; [exact Hlow|]. split; [exact Hlen|]. apply Hhigh. reflexivity.
Defined.

Section Fallback.
Context {L : Libm}.
#[local] Open Scope float_scope.

Lemma try_arc_passed (fuel : nat) (st : planner) (start : loc.t)
    (traverse_dist r l : float) (arcs arcs' : list float) :
  fallback_try st traverse_dist r l ->
  try_arc fuel st start r l arcs = Some arcs' ->
  all_passed fuel st start traverse_dist arcs ->
  all_passed fuel st start traverse_dist arcs'.
Proof.
  intros Htry Hrun Hall. unfold try_arc in Hrun.
  apply bind_Some in Hrun as [ok [Htest Hrun]].
  apply (inj Some) in Hrun. subst arcs'.
  destruct ok; [|exact Hall].
  intros r' Hr'. apply elem_of_app in Hr' as [Hr'|Hr']; [now apply Hall|].
  apply list_elem_of_singleton in Hr'. subst r'. now exists l.
Qed.

Lemma try_radii_passed (fuel : nat) (st : planner) (start : loc.t)
    (traverse_dist : float) (ks : list Z) (arcs arcs' : list float) :
  (forall i, i ∈ ks -> i ∈ [1; 2; 4; 8]%Z) ->
  try_radii fuel st start traverse_dist ks arcs = Some arcs' ->
  all_passed fuel st start traverse_dist arcs ->
  all_passed fuel st start traverse_dist arcs'.
Proof.
  revert arcs. induction ks as [|i ks IH]; intros arcs Hks; simpl.
  - now intros [= <-].
  - intros Hrun Hall.
    apply bind_Some in Hrun as [arcs1 [H1 Hrun]].
    apply bind_Some in Hrun as [arcs2 [H2 Hrun]].
    assert (i ∈ [1; 2; 4; 8]%Z) as Hi by (apply Hks; left).
    eapply (IH arcs2); [intros j Hj; apply Hks; now right|exact Hrun|].
    eapply try_arc_passed; [|exact H2|].
    { right. exists i. split; [exact Hi|]. split; [reflexivity|now right]. }
    eapply try_arc_passed; [|exact H1|exact Hall].
    right. exists i. split; [exact Hi|]. split; [reflexivity|now left].
Qed.

(** X12. Every radius the fallback loop collects passed the collision
    test: it is [0] tested at [traverse_dist], or [min_radius * i] or
    [-min_radius * i] for an [i] of 1, 2, 4, 8 tested at
    [min(traverse_dist, min_radius * i * pi / 2)], and [test_arc] returned
    true for it on the planner's grid. *)
Theorem candidate_arcs_passed (fuel : nat) (st : planner) (start : loc.t)
    (traverse_dist : float) (arcs : list float) (r : float) :
  candidate_arcs fuel st start traverse_dist = Some arcs ->
  r ∈ arcs ->
  exists l : float,
    fallback_try st traverse_dist r l
    /\ test_arc fuel (map_data st) start r l = Some true.
Proof.
  unfold candidate_arcs. intros Hrun.
  apply bind_Some in Hrun as [arcs0 [H0 Hrun]].
  revert r. change (all_passed fuel st start traverse_dist arcs).
  eapply try_radii_passed; [done|exact Hrun|].
  eapply try_arc_passed; [|exact H0|].
  - now left.
  - intros r Hr. now apply elem_of_nil in Hr.
Qed.

(** The state of the selection loop: the best radius so far with its
    score. *)
Lemma choose_arc_fold (start goal : loc.t) (traverse_dist : float)
    (arcs seen : list float) (best : float) :
  best ∈ seen ->
  (forall r, r ∈ seen ->
     Double.lt (arc_score start goal traverse_dist r)
       (arc_score start goal traverse_dist best) = false) ->
  let best' :=
    fst (fold_left
           (fun '(best_r, min_dist) r =>
              let d := arc_score start goal traverse_dist r in
              if Double.lt d min_dist then (r, d) else (best_r, min_dist))
           arcs (best, arc_score start goal traverse_dist best)) in
  best' ∈ seen ++ arcs
  /\ forall r, r ∈ seen ++ arcs ->
       Double.lt (arc_score start goal traverse_dist r)
         (arc_score start goal traverse_dist best') = false.
Proof.
  revert seen best. induction arcs as [|a arcs IH]; intros seen best Hin Hmin.
  - simpl. rewrite app_nil_r. split; [exact Hin|exact Hmin].
  - simpl. replace (seen ++ a :: arcs) with ((seen ++ [a]) ++ arcs)
      by (now rewrite <- app_assoc).
    destruct (Double.lt (arc_score start goal traverse_dist a)
                (arc_score start goal traverse_dist best)) eqn:E.
    + apply IH.
      * apply elem_of_app. right. now left.
      * intros r Hr. apply elem_of_app in Hr as [Hr|Hr].
        -- destruct (Double.lt (arc_score start goal traverse_dist r)
                       (arc_score start goal traverse_dist a)) eqn:E'; [|done].
           pose proof (DoubleFacts.lt_trans _ _ _ E' E) as Hlt.
           rewrite (Hmin r Hr) in Hlt. discriminate.
        -- apply list_elem_of_singleton in Hr. subst r.
           apply DoubleFacts.lt_irrefl.
    + apply IH.
      * apply elem_of_app. now left.
      * intros r Hr. apply elem_of_app in Hr as [Hr|Hr]; [now apply Hmin|].
        apply list_elem_of_singleton in Hr. now subst r.
Qed.

(** X13. The selection loop returns a radius of the list it is given, and
    no radius of the list has a strictly smaller score, the score being the
    distance the loop computes (the end of the arc of length
    [min(traverse_dist, r * pi / 2)] to the goal). *)
Theorem choose_arc_best (start goal : loc.t) (traverse_dist first : float)
    (rest : list float) :
  let best_r := choose_arc start goal traverse_dist first (first :: rest) in
  best_r ∈ first :: rest
  /\ forall r, r ∈ first :: rest ->
       Double.lt (arc_score start goal traverse_dist r)
         (arc_score start goal traverse_dist best_r) = false.
Proof.
  unfold choose_arc. simpl fold_left. rewrite DoubleFacts.lt_irrefl.
  apply (choose_arc_fold start goal traverse_dist rest [first] first).
  - now left.
  - intros r Hr. apply list_elem_of_singleton in Hr. subst r.
    apply DoubleFacts.lt_irrefl.
Qed.

End Fallback.

(** With the tangent arc blocked, the widest left turn is among the arcs
    collected, and it passed the test. *)
Lemma candidate_arcs_passed_witness :
  exists l : float,
    fallback_try (driving blocked_tangent)
      (Double.min (dist (L := RefLibm.libm) loc.zero (loc.mk 1 (-1) 0)) 4.0)
      (0.695 * 8) l
    /\ test_arc (L := RefLibm.libm) 100 (map_data (driving blocked_tangent))
         loc.zero (0.695 * 8) l = Some true.
Proof.
  apply (candidate_arcs_passed (L := RefLibm.libm) 100
           (driving blocked_tangent) loc.zero _
           [0; 0.695; -0.695; 0.695 * 2; -0.695 * 2; 0.695 * 4; -0.695 * 4;
            0.695 * 8; -0.695 * 8]%float).
  - vm_compute. reflexivity.
  - do 7 right. left.
Defined.

(* ------------------------------------------------------------------ *)
(** * CONE: how the mode is entered and left *)

(** [fromNSec] and [toNSec] are inverse. *)
Lemma toNSec_fromNSec (n : Z) : RosTime.toNSec (RosTime.fromNSec n) = n.
Proof.
  unfold RosTime.toNSec, RosTime.fromNSec. simpl.
  pose proof (Z.div_mod n 1000000000). lia.
Qed.

(** A time-out counted from [now] has not expired at [now]. *)
Lemma add_sec_not_before (t : Time) (s : Z) :
  0 <= s -> RosTime.ltb (RosTime.add_sec t s) t = false.
Proof.
  intros Hs. unfold RosTime.ltb, RosTime.add_sec.
  rewrite toNSec_fromNSec. apply Z.ltb_ge. lia.
Qed.

Section ConeExits.
Context {L : Libm}.
#[local] Open Scope float_scope.

(** X14. Entering CONE. In FORWARD mode with cone tracking on, closer to the
    goal than [cone_dist] and with the bumper free, [plan_path] switches to
    CONE, stores the pose as the pattern centre and the time as the
    time-out, publishes nothing and already steers as CONE does: speed
    [cone_speed], radius [cone_speed / (cone * 1.4)] for a vision reading
    younger than [cone_timeout] and [2.0] otherwise. The 60 s time-out is
    counted from the clock reading of the call, so it does not fire in the
    call that sets it. *)
Theorem cone_entry (fuel : nat) (now : Time) (st : planner)
    (start goal : loc.t) :
  planner_state st = FORWARD ->
  track_cones st = true ->
  Double.lt (dist start goal) (cone_dist st) = true ->
  bump st = false ->
  let st' := set_planner_timeout now
               (set_pattern_center start (set_planner_state CONE st)) in
  plan_path fuel now st start goal
  = Some (mkPath (cone_speed st)
            (if Double.lt (RosTime.diff_sec now (cone_time st)) (cone_timeout st)
             then cone_speed st / (cone st * 1.4) else 2.0),
          st', []).
Proof.
  intros Hst Htrack Hnear Hbump st'. unfold plan_path.
  rewrite Htrack, Hnear, Hst. simpl. unfold plan_cone. simpl.
  rewrite Hbump. rewrite add_sec_not_before by lia. reflexivity.
Qed.

(** X15. Touching the cone. In CONE mode with the bumper pressed,
    [plan_path] stops the robot, reports the goal as reached (one [Done true]
    and nothing else), switches to BACKING from the current pose and
    deactivates the goal, whatever the age of the mode: the time-out is
    restarted before it is tested, so no [Done false] follows. *)
Theorem cone_bump (fuel : nat) (now : Time) (st : planner)
    (start goal : loc.t) :
  planner_state st = CONE ->
  bump st = true ->
  plan_path fuel now st start goal
  = Some (mkPath 0 0,
          set_active false
            (set_planner_state BACKING
               (set_backup_pose start (set_planner_timeout now st))),
          [Done true]).
Proof.
  intros Hst Hbump. rewrite plan_path_cone by exact Hst.
  unfold plan_cone. rewrite Hbump. simpl planner_timeout.
  rewrite add_sec_not_before by lia. reflexivity.
Qed.

End ConeExits.

(** Three metres from the goal with tracking on and no vision reading. *)
Lemma cone_entry_witness :
  plan_path (L := RefLibm.libm) 0 (mkTime 100 0)
    (reconfigureCb tracking_config (driving empty_map)) loc.zero
    (loc.mk 3 0 0)
  = Some (mkPath 0.4 2.0,
          set_planner_timeout (mkTime 100 0)
            (set_pattern_center loc.zero
               (set_planner_state CONE
                  (reconfigureCb tracking_config (driving empty_map)))),
          []).
Proof.
  apply (cone_entry (L := RefLibm.libm) 0 (mkTime 100 0)
           (reconfigureCb tracking_config (driving empty_map)) loc.zero
           (loc.mk 3 0 0)); reflexivity.
Defined.

(** A second into CONE mode, the bumper closes. *)
Lemma cone_bump_witness :
  plan_path (L := RefLibm.libm) 0 (mkTime 101 0)
    (bumpCb true (cone_tracking 0.3 (mkTime 100 0))) (loc.mk 1 2 0)
    (loc.mk 3 0 0)
  = Some (mkPath 0 0,
          set_active false
            (set_planner_state BACKING
               (set_backup_pose (loc.mk 1 2 0)
                  (set_planner_timeout (mkTime 101 0)
                     (bumpCb true (cone_tracking 0.3 (mkTime 100 0)))))),
          [Done true]).
Proof.
  apply (cone_bump (L := RefLibm.libm)); reflexivity.
Defined.

(* ------------------------------------------------------------------ *)
(** * What a plan changes and what an odometry message publishes *)

Section PlanEffects.
Context {L : Libm} {T : Tf2}.

Lemma plan_path_no_cmd (fuel : nat) (now : Time) (st st' : planner)
    (start goal : loc.t) (p : path) (out : list output) :
  plan_path fuel now st start goal = Some (p, st', out) ->
  Forall (fun o => is_cmd o = false) out.
Proof.
  unfold plan_path, plan_forward, plan_backing, plan_cone. intros H.
  repeat (case_match; simplify_option_eq); repeat constructor.
Qed.

(** X16. What planning leaves alone. Whenever [plan_path] returns, the
    parameters, the grid, the goal, the stored pose and frame and what the
    bump, cone and vision callbacks stored are what they were; and the goal
    is never activated by planning: it is active afterwards only if it was
    before. *)
Theorem plan_path_keeps (fuel : nat) (now : Time) (st st' : planner)
    (start goal : loc.t) (p : path) (out : list output) :
  plan_path fuel now st start goal = Some (p, st', out) ->
  plan_keeps st st' /\ (active st' = true -> active st = true).
Proof.
  unfold plan_path, plan_forward, plan_backing, plan_cone, plan_keeps.
  intros H.
  repeat (case_match; simplify_option_eq); simpl; intuition congruence.
Qed.

(** X17. One command per odometry message. Whenever [positionCallback]
    returns, either it published nothing, and then the goal is in another
    frame for which no transform is available, or what it published ends
    with a velocity command and holds no other velocity command. *)
Theorem positionCallback_one_command (fuel : nat) (now : Time)
    (msg : Odometry) (st st' : planner) (out : list output) :
  positionCallback fuel now msg st = Some (st', out) ->
  (out = []
   /\ odom_frame_id msg <> frame_id (goal_msg st)
   /\ canTransform (odom_frame_id msg) (frame_id (goal_msg st))
        (stamp (goal_msg st)) = false)
  \/ exists (pre : list output) (linear angular : float),
       out = pre ++ [Cmd linear angular]
       /\ Forall (fun o => is_cmd o = false) pre.
Proof.
  unfold positionCallback, goal_in_frame. simpl goal_msg. intros H.
  destruct (bool_decide_reflect
              (odom_frame_id msg <> frame_id (goal_msg st))) as [Hne|Heq].
  - destruct (canTransform _ _ _) eqn:Hcan.
    + right. destruct (active _).
      * apply bind_Some in H as [[[p st1] out1] [Hplan H]].
        apply (inj Some) in H. injection H as _ <-.
        eexists _, _, _. split; [reflexivity|].
        eapply plan_path_no_cmd. exact Hplan.
      * apply (inj Some) in H. injection H as _ <-.
        now exists [], 0%float, 0%float.
    + left. apply (inj Some) in H. injection H as _ <-. done.
  - right. destruct (active _).
    + apply bind_Some in H as [[[p st1] out1] [Hplan H]].
      apply (inj Some) in H. injection H as _ <-.
      eexists _, _, _. split; [reflexivity|].
      eapply plan_path_no_cmd. exact Hplan.
    + apply (inj Some) in H. injection H as _ <-.
      now exists [], 0%float, 0%float.
Qed.

End PlanEffects.

(** The run of the bumper closing in CONE mode. *)
Lemma plan_path_keeps_witness :
  let st := bumpCb true (cone_tracking 0.3 (mkTime 100 0)) in
  let st' := set_active false
               (set_planner_state BACKING
                  (set_backup_pose (loc.mk 1 2 0)
                     (set_planner_timeout (mkTime 101 0) st))) in
  plan_keeps st st' /\ (active st' = true -> active st = true).
Proof.
  intros st st'.
  apply (plan_path_keeps (L := RefLibm.libm) 0 (mkTime 101 0) st st'
           (loc.mk 1 2 0) (loc.mk 3 0 0) (mkPath 0 0) [Done true]).
  vm_compute. reflexivity.
Defined.

(** An odometry message at the goal, in the frame of the goal: the goal is
    reported reached and one velocity command follows. *)
Lemma positionCallback_one_command_witness :
  ([Done true; Cmd 0 0] = []
   /\ "map" <> frame_id (goal_msg driving_to_goal)
   /\ canTransform (Tf2 := no_tf2) "map" (frame_id (goal_msg driving_to_goal))
        (stamp (goal_msg driving_to_goal)) = false)
  \/ exists (pre : list output) (linear angular : float),
       [Done true; Cmd 0 0] = pre ++ [Cmd linear angular]
       /\ Forall (fun o => is_cmd o = false) pre.
Proof.
  eapply (positionCallback_one_command (L := RefLibm.libm) (T := no_tf2) 0
            (mkTime 10 0) (mkOdometry "map" 5 0 0.5 0) driving_to_goal).
  vm_compute. reflexivity.
Defined.

(** [-a > 0] exactly when [a < 0]. *)
Lemma opp_positive (a : float) : Double.gt (- a) 0 = Double.lt a 0.
Proof.
  unfold Double.gt, Double.lt. rewrite !ltb_spec, opp_spec.
  change (Prim2SF 0) with (S754_zero false).
  destruct (Prim2SF a) as [s|s| |s m e]; try reflexivity;
    destruct s; reflexivity.
Qed.

Section AccelLimit.
Context {L : Libm} {T : Tf2}.
#[local] Open Scope float_scope.

Lemma limit_accel_positive (st : planner) (speed current_speed : float) :
  Double.lt (max_accel st) 0 = false ->
  Double.lt current_speed 0 = false ->
  Double.gt (limit_accel st speed current_speed) 0 = true ->
  if Double.gt current_speed 0
  then Double.gt (limit_accel st speed current_speed)
         (current_speed + max_accel st) = false
  else limit_accel st speed current_speed = max_accel st.
Proof.
  intros Hacc Hcur. unfold limit_accel.
  destruct (Double.gt speed 0) eqn:Hpos.
  - destruct (Double.gt current_speed 0); intros _;
      [apply min_not_above_r|reflexivity].
  - destruct (Double.lt speed 0) eqn:Hneg.
    + rewrite Hcur, opp_positive, Hacc. discriminate.
    + rewrite Hpos. discriminate.
Qed.

Lemma plan_path_max_accel (fuel : nat) (now : Time) (st st' : planner)
    (start goal : loc.t) (p : path) (out : list output) :
  plan_path fuel now st start goal = Some (p, st', out) ->
  max_accel st' = max_accel st.
Proof.
  unfold plan_path, plan_forward, plan_backing, plan_cone. intros H.
  repeat (case_match; simplify_option_eq); reflexivity.
Qed.

(** X18. The acceleration limit on a forward command. With [max_accel] not
    negative and the measured speed not negative, a positive linear speed
    published by [positionCallback] is not above the measured speed plus
    [max_accel] when the robot moves forward, and is exactly [max_accel]
    when it stands still, whatever speed the plan asked for. *)
Theorem forward_command_limited (fuel : nat) (now : Time) (msg : Odometry)
    (st st' : planner) (pre : list output) (linear angular : float) :
  positionCallback fuel now msg st = Some (st', pre ++ [Cmd linear angular]) ->
  Double.lt (max_accel st) 0 = false ->
  Double.lt (odom_linear_x msg) 0 = false ->
  Double.gt linear 0 = true ->
  if Double.gt (odom_linear_x msg) 0
  then Double.gt linear (odom_linear_x msg + max_accel st) = false
  else linear = max_accel st.
Proof.
  unfold positionCallback. intros H Hacc Hcur Hlin.
  destruct (goal_in_frame _ _) as [st1|] eqn:Hgoal.
  - assert (max_accel st1 = max_accel st) as Hst1.
    { unfold goal_in_frame in Hgoal.
      repeat (case_match; simplify_option_eq); reflexivity. }
    destruct (active st1).
    + apply bind_Some in H as [[[p st2] out] [Hplan H]].
      apply (inj Some) in H. injection H as _ Hout.
      apply app_inj_tail in Hout as [_ Hcmd]. injection Hcmd as Hspeed _.
      apply plan_path_max_accel in Hplan.
      rewrite <- Hst1, <- Hplan. rewrite <- Hspeed in Hlin |- *.
      apply limit_accel_positive; [now rewrite Hplan, Hst1|exact Hcur|exact Hlin].
    + apply (inj Some) in H. injection H as _ Hout.
      apply (app_inj_tail []) in Hout as [_ Hcmd]. injection Hcmd as <- _.
      discriminate.
  - apply (inj Some) in H. injection H as _ Hout.
    symmetry in Hout. now apply app_nil in Hout as [_ Hout].
Qed.

End AccelLimit.

(** Driving at 0.5 m/s towards a goal five metres ahead: the command is
    0.8 m/s. *)
Lemma forward_command_limited_witness :
  Double.gt 0.8 (0.5 + max_accel driving_to_goal) = false.
Proof.
  eapply (forward_command_limited (L := RefLibm.libm) (T := no_tf2) 100
            (mkTime 10 0) (mkOdometry "map" 0 0 0 0.5) driving_to_goal _
            [PathMsg "map" []] 0.8 0.2);
    vm_compute; reflexivity.
Defined.

(* ------------------------------------------------------------------ *)
(** * The detector: segmentation, detection and the stored cones *)

Section DetectorFacts.
Context {L : Libm} {T : ConeDetector.Listener}.
Import ConeDetector.
#[local] Open Scope float_scope.

Lemma concat_push_back_last (p : Point) (groups : list (list Point)) :
  groups <> [] ->
  concat (push_back_last p groups) = concat groups ++ [p]
  /\ push_back_last p groups <> [].
Proof.
  intros Hne. unfold push_back_last.
  destruct (reverse groups) as [|g rest] eqn:Hrev.
  - apply (f_equal reverse) in Hrev. rewrite reverse_involutive in Hrev.
    now subst groups.
  - apply (f_equal reverse) in Hrev. rewrite reverse_involutive in Hrev.
    subst groups. rewrite !reverse_cons, !concat_app. simpl.
    rewrite !app_nil_r, app_assoc. split; [reflexivity|].
    intros Hnil. apply (f_equal length) in Hnil.
    rewrite length_app in Hnil. simpl in Hnil. lia.
Qed.

Lemma segment_concat (det : detector) (msg : LaserScan) (rs : list float)
    (theta : float) (prev : Point) (groups : list (list Point)) :
  groups <> [] ->
  concat (segment det msg rs theta prev groups)
  = concat groups ++ accepted_points msg rs theta.
Proof.
  revert theta prev groups.
  induction rs as [|r rs IH]; intros theta prev groups Hne; simpl.
  - now rewrite app_nil_r.
  - destruct (Double.ge r (range_min msg)); [|now apply IH].
    destruct (transformPoint _ _) as [b|]; [|now rewrite app_nil_r].
    destruct (Double.gt _ (grouping_threshold det)).
    + destruct (concat_push_back_last (point_of b) (groups ++ [[]]))
        as [Hcat Hne'].
      { intros Hnil. now apply app_nil in Hnil as [_ Hnil]. }
      rewrite IH by exact Hne'. rewrite Hcat, concat_app. simpl.
      now rewrite app_nil_r, <- app_assoc.
    + destruct (concat_push_back_last (point_of b) groups Hne)
        as [Hcat Hne'].
      rewrite IH by exact Hne'. rewrite Hcat. now rewrite <- app_assoc.
Qed.

(** X19. Segmentation loses and reorders nothing: the groups, taken in
    order and concatenated, are the transformed points of the beams at or
    above [range_min], in scan order, up to the first transform that
    throws. *)
Theorem segment_keeps_points (det : detector) (msg : LaserScan) :
  concat (segment det msg (ranges msg) (angle_min msg) (mkPoint 0 0 0) [[]])
  = accepted_points msg (ranges msg) (angle_min msg).
Proof.
  rewrite segment_concat.
  - reflexivity.
  - discriminate.
Qed.

Lemma accepted_points_length (msg : LaserScan) (rs : list float)
    (theta : float) :
  (length (accepted_points msg rs theta) <= length rs)%nat.
Proof.
  revert theta. induction rs as [|r rs IH]; intros theta; simpl; [lia|].
  destruct (Double.ge r (range_min msg)).
  - destruct (transformPoint _ _); simpl; [|lia].
    specialize (IH (theta + angle_increment msg)). lia.
  - specialize (IH (theta + angle_increment msg)). lia.
Qed.

Lemma group_length_le_concat (groups : list (list Point)) (g : list Point) :
  g ∈ groups -> (length g <= length (concat groups))%nat.
Proof.
  induction groups as [|g' groups IH]; intros Hg.
  - now apply elem_of_nil in Hg.
  - simpl. rewrite length_app.
    apply elem_of_cons in Hg as [->|Hg]; [lia|]. specialize (IH Hg). lia.
Qed.

Lemma detect_circle_small (det : detector) (now : Time) (group : list Point)
    (cs new_cones : list cone_type) :
  0 <= min_circle_size det < 2 ^ 64 ->
  (Z.of_nat (length group) <= min_circle_size det)%Z ->
  detect_circle det now group cs new_cones = (cs, new_cones).
Proof.
  intros Hmin Hsmall. unfold detect_circle.
  destruct (size_t (min_circle_size det) <? Z.of_nat (length group))%Z eqn:E;
    [|done].
  apply Z.ltb_lt in E. unfold size_t in E.
  rewrite Z.mod_small in E by lia. lia.
Qed.

Lemma fold_detect_small (det : detector) (now : Time)
    (groups : list (list Point)) (cs new_cones : list cone_type) :
  0 <= min_circle_size det < 2 ^ 64 ->
  (forall g, g ∈ groups -> (Z.of_nat (length g) <= min_circle_size det)%Z) ->
  fold_left (fun '(cs, new_cones) group =>
               detect_circle det now group cs new_cones)
    groups (cs, new_cones) = (cs, new_cones).
Proof.
  intros Hmin. induction groups as [|g groups IH]; intros Hall; simpl; [done|].
  rewrite detect_circle_small; [|exact Hmin|apply Hall; left].
  apply IH. intros g' Hg'. apply Hall. now right.
Qed.

(** X20. A scan with no more beams than [min_circle_size] (taken not
    negative) yields no cone, whatever the transforms do: the stored cones
    become those seen less than two seconds ago and the marker carries their
    points. *)
Theorem few_beams_no_cone (now : Time) (msg : LaserScan) (det : detector) :
  0 <= min_circle_size det < 2 ^ 64 ->
  (Z.of_nat (length (ranges msg)) <= min_circle_size det)%Z ->
  laserCallback now msg det
  = (set_cones (retained now (cones det)) det,
     mkMarker (scan_stamp msg) (map snd (retained now (cones det)))).
Proof.
  intros Hmin Hfew. unfold laserCallback.
  rewrite fold_detect_small; [reflexivity|exact Hmin|].
  intros g Hg. apply group_length_le_concat in Hg.
  rewrite segment_concat in Hg by done. simpl in Hg.
  pose proof (accepted_points_length msg (ranges msg) (angle_min msg)). lia.
Qed.

End DetectorFacts.

Section DetectorState.
Context {L : Libm} {T : ConeDetector.Listener}.
Import ConeDetector.
#[local] Open Scope float_scope.

Lemma segment_no_beam (det : detector) (msg : LaserScan) (rs : list float)
    (theta : float) (prev : Point) (groups : list (list Point)) :
  Forall (fun r => Double.ge r (range_min msg) = false) rs ->
  segment det msg rs theta prev groups = groups.
Proof.
  intros Hrs. revert theta.
  induction Hrs as [|r rs Hr _ IH]; intros theta; simpl; [done|].
  rewrite Hr. apply IH.
Qed.

(** X21. A scan whose ranges are all below [range_min] (or NaN) yields no
    cone and asks for no transform: the stored cones become those seen less
    than two seconds ago and the marker carries their points. *)
Theorem no_valid_beam_no_cone (now : Time) (msg : LaserScan)
    (det : detector) :
  Forall (fun r => Double.ge r (range_min msg) = false) (ranges msg) ->
  laserCallback now msg det
  = (set_cones (retained now (cones det)) det,
     mkMarker (scan_stamp msg) (map snd (retained now (cones det)))).
Proof.
  intros Hrs. unfold laserCallback.
  rewrite segment_no_beam by exact Hrs.
  simpl fold_left. rewrite detect_circle_empty. reflexivity.
Qed.

Lemma associate_detecting (det : detector) (now : Time) (center : Point)
    (cones0 cs new_cones : list cone_type) :
  detecting now cones0 (cs, new_cones) ->
  detecting now cones0 (associate det now center cs new_cones).
Proof.
  intros [Hcs Hnew]. unfold associate. split; simpl.
  - intros c Hc. apply Hcs.
    destruct (cs !! nearest cs center); [|exact Hc].
    destruct (Double.lt _ _); [|exact Hc].
    eapply list_elem_of_delete_inv. exact Hc.
  - intros c Hc. apply elem_of_app in Hc as [Hc|Hc]; [now apply Hnew|].
    apply list_elem_of_singleton in Hc. now subst c.
Qed.

Lemma detect_circle_detecting (det : detector) (now : Time)
    (group : list Point) (cones0 cs new_cones : list cone_type) :
  detecting now cones0 (cs, new_cones) ->
  detecting now cones0 (detect_circle det now group cs new_cones).
Proof.
  intros Hacc. unfold detect_circle.
  destruct (_ <? _)%Z; [|exact Hacc].
  destruct (inscribed _ _ _ _ _ _ _ _) as [[angles avg_angle] center].
  repeat match goal with
         | |- context [if ?c then _ else _] => destruct c
         end; try exact Hacc; now apply associate_detecting.
Qed.

(** X22. After a scan, every stored cone either carries the time of the
    call (it was detected in this scan) or was stored before and was seen
    less than two seconds before the call. *)
Theorem stored_cones_are_recent (now : Time) (msg : LaserScan)
    (det : detector) (c : cone_type) :
  c ∈ cones (laserCallback now msg det).1 ->
  fst c = now
  \/ (c ∈ cones det /\ RosTime.gtb (fst c) (RosTime.sub_sec now 2) = true).
Proof.
  unfold laserCallback.
  set (groups := segment _ _ _ _ _ _).
  assert (detecting now (cones det)
            (fold_left (fun '(cs, new_cones) group =>
                          detect_circle det now group cs new_cones)
               groups (cones det, []))) as Hacc.
  { apply fold_left_invariant.
    - intros [cs nc] g. apply detect_circle_detecting.
    - split; [done|]. intros c' Hc'. now apply elem_of_nil in Hc'. }
  destruct (fold_left _ groups _) as [cs new_cones].
  destruct Hacc as [Hcs Hnew]. simpl. intros Hc.
  apply elem_of_app in Hc as [Hc|Hc]; [left; now apply Hnew|].
  right. unfold retained in Hc. apply list_elem_of_filter in Hc as [Hrecent Hc].
  split; [now apply Hcs|exact Hrecent].
Qed.

(** The scan of [nearest]: the index and the distance of the best cone so
    far, and the index of the next one. *)
Lemma nearest_fold (center : Point) (cs seen : list cone_type)
    (best : nat) (b : cone_type) :
  seen !! best = Some b ->
  (forall c, c ∈ seen ->
     Double.lt (dist (snd c) center) (dist (snd b) center) = false) ->
  let best' :=
    fst (fst (fold_left
                (fun '(best, d, k) c' =>
                   if Double.lt (dist (snd c') center) d
                   then (k, dist (snd c') center, S k)
                   else (best, d, S k))
                cs (best, dist (snd b) center, length seen))) in
  exists b', (seen ++ cs) !! best' = Some b'
    /\ forall c, c ∈ seen ++ cs ->
         Double.lt (dist (snd c) center) (dist (snd b') center) = false.
Proof.
  revert seen best b. induction cs as [|a cs IH]; intros seen best b Hb Hmin.
  - simpl. rewrite app_nil_r. now exists b.
  - simpl. replace (seen ++ a :: cs) with ((seen ++ [a]) ++ cs)
      by (now rewrite <- app_assoc).
    replace (S (length seen)) with (length (seen ++ [a]))
      by (rewrite length_app; simpl; lia).
    destruct (Double.lt (dist (snd a) center) (dist (snd b) center)) eqn:E.
    + apply IH.
      * rewrite lookup_app_r by lia. now rewrite Nat.sub_diag.
      * intros c Hc. apply elem_of_app in Hc as [Hc|Hc].
        -- destruct (Double.lt (dist (snd c) center) (dist (snd a) center))
             eqn:E'; [|done].
           pose proof (DoubleFacts.lt_trans _ _ _ E' E) as Hlt.
           rewrite (Hmin c Hc) in Hlt. discriminate.
        -- apply list_elem_of_singleton in Hc. subst c.
           apply DoubleFacts.lt_irrefl.
    + apply IH.
      * rewrite lookup_app_l; [exact Hb|]. now apply lookup_lt_Some in Hb.
      * intros c Hc. apply elem_of_app in Hc as [Hc|Hc]; [now apply Hmin|].
        apply list_elem_of_singleton in Hc. now subst c.
Qed.

(** X23. The search for the nearest stored cone returns the index of a
    stored cone, and no stored cone is strictly closer to the detected
    centre than that one. *)
Theorem nearest_is_closest (cs : list cone_type) (center : Point)
    (c : cone_type) :
  c ∈ cs ->
  exists n : cone_type,
    cs !! nearest cs center = Some n
    /\ Double.lt (dist (snd c) center) (dist (snd n) center) = false.
Proof.
  intros Hc. destruct cs as [|c0 cs]; [now apply elem_of_nil in Hc|].
  unfold nearest. simpl fold_left. rewrite DoubleFacts.lt_irrefl.
  destruct (nearest_fold center cs [c0] 0 c0 eq_refl) as [n [Hn Hmin]].
  { intros c' Hc'. apply list_elem_of_singleton in Hc'. subst c'.
    apply DoubleFacts.lt_irrefl. }
  exists n. split; [exact Hn|]. now apply Hmin.
Qed.

End DetectorState.

(** Three beams on a wall, four points needed. *)
Lemma few_beams_no_cone_witness :
  ConeDetector.laserCallback (L := RefLibm.libm) (T := identity_listener)
    (mkTime 10 0) wall_ahead one_cone
  = (one_cone,
     ConeDetector.mkMarker (mkTime 10 0) [ConeDetector.mkPoint 1 1 0]).
Proof.
  rewrite (few_beams_no_cone (L := RefLibm.libm) (T := identity_listener)
             (mkTime 10 0) wall_ahead one_cone);
    [reflexivity | vm_compute; split; [discriminate | reflexivity]
     | vm_compute; discriminate].
Defined.

(** Two status codes and no range. *)
Lemma no_valid_beam_no_cone_witness :
  ConeDetector.laserCallback (L := RefLibm.libm) (T := identity_listener)
    (mkTime 10 0)
    (mkLaserScan "laser" (mkTime 10 0) 0 0.01 0.1 [0.01; 0.02]%float)
    one_cone
  = (one_cone,
     ConeDetector.mkMarker (mkTime 10 0) [ConeDetector.mkPoint 1 1 0]).
Proof.
  rewrite (no_valid_beam_no_cone (L := RefLibm.libm) (T := identity_listener)
             (mkTime 10 0)
             (mkLaserScan "laser" (mkTime 10 0) 0 0.01 0.1 [0.01; 0.02]%float)
             one_cone);
    [reflexivity | repeat constructor].
Defined.

(** The cone seen at second 9 is still stored after the scan of second 10. *)
Lemma stored_cones_are_recent_witness :
  let c := (mkTime 9 0, ConeDetector.mkPoint 1 1 0) in
  fst c = mkTime 10 0
  \/ (c ∈ ConeDetector.cones one_cone
      /\ RosTime.gtb (fst c) (RosTime.sub_sec (mkTime 10 0) 2) = true).
Proof.
  intros c.
  apply (stored_cones_are_recent (L := RefLibm.libm) (T := identity_listener)
           (mkTime 10 0) wall_ahead one_cone c).
  vm_compute. constructor.
Defined.

(** Three stored cones; the second is the nearest to the origin. *)
Lemma nearest_is_closest_witness :
  let cs := [(mkTime 9 0, ConeDetector.mkPoint 1 1 0);
             (mkTime 9 0, ConeDetector.mkPoint 0.5 0 0);
             (mkTime 9 0, ConeDetector.mkPoint 3 1 0)]%float in
  exists n : ConeDetector.cone_type,
    cs !! ConeDetector.nearest (L := RefLibm.libm) cs
            (ConeDetector.mkPoint 0 0 0) = Some n
    /\ Double.lt
         (ConeDetector.dist (L := RefLibm.libm)
            (ConeDetector.mkPoint 3 1 0) (ConeDetector.mkPoint 0 0 0))
         (ConeDetector.dist (L := RefLibm.libm) (snd n)
            (ConeDetector.mkPoint 0 0 0)) = false.
Proof.
  intros cs.
  apply (nearest_is_closest (L := RefLibm.libm) cs
           (ConeDetector.mkPoint 0 0 0)
           (mkTime 9 0, ConeDetector.mkPoint 3 1 0)).
  repeat constructor.
Defined.
